(** * ML-Insights: the MNIST starter notebook

    A shallow embedding of the code cells of [mnist_starter_pytorch.ipynb]:
    the tensor conversions between PyTorch, NumPy and TensorFlow, the
    [transform] pipeline applied to the MNIST samples, the datasets and data
    loaders, and the [LinearModel] module with its [__init__] and [forward]
    methods.

    The notebook is Python, so the embedding carries the parts of Python's
    semantics the cells rely on: dynamically typed values, objects on a heap
    addressed by references (aliasing is visible), exceptions that propagate
    through every caller that does not catch them, and function bodies that
    return [None] when control reaches their end. *)

From Stdlib Require Import ZArith QArith Qcanon List String Lia SpecFloat.
From stdpp Require Import base gmap strings list.

Set Warnings "-register-all".

(** ** Scalars

    Tensor elements are IEEE binary32 numbers at run time.  The development
    is written over an interface of scalar operations with two instances:
    exact rationals, which give the arithmetic meaning of the formulas, and
    binary32 with round-to-nearest-even, which is what the libraries compute. *)

Class Scalar (A : Type) := {
  of_Z : Z → A;
  sadd : A → A → A;
  ssub : A → A → A;
  smul : A → A → A;
  sdiv : A → A → A;
  seqb : A → A → bool;
  sltb : A → A → bool;
  sleb : A → A → bool
}.

Definition Qc_ltb (x y : Qc) : bool :=
  match (x ?= y)%Qc with Lt => true | _ => false end.

Definition Qc_leb (x y : Qc) : bool :=
  match (x ?= y)%Qc with Gt => false | _ => true end.

#[export] Instance Qc_scalar : Scalar Qc := {
  of_Z z := Q2Qc (inject_Z z);
  sadd := Qcplus;
  ssub := Qcminus;
  smul := Qcmult;
  sdiv := Qcdiv;
  seqb := Qc_eq_bool;
  sltb := Qc_ltb;
  sleb := Qc_leb
}.

(** binary32: 24 bits of precision, exponents below 128. *)
Definition f32 : Type := spec_float.
Definition f32_prec : Z := 24.
Definition f32_emax : Z := 128.

#[export] Instance f32_scalar : Scalar f32 := {
  of_Z z := binary_normalize f32_prec f32_emax z 0 false;
  sadd := SFadd f32_prec f32_emax;
  ssub := SFsub f32_prec f32_emax;
  smul := SFmul f32_prec f32_emax;
  sdiv := SFdiv f32_prec f32_emax;
  seqb := SFeqb;
  sltb := SFltb;
  sleb := SFleb
}.

(** ** Exceptions and results of library calls *)

Inductive exn_class :=
  | TypeError | ValueError | RuntimeError | AttributeError | NameError
  | IndexError.

Record exn := Exn { exn_cls : exn_class; exn_msg : string }.

Inductive result (T : Type) :=
  | Ok (v : T)
  | Err (e : exn).
Arguments Ok {T} v.
Arguments Err {T} e.

Definition rbind {T U} (r : result T) (k : T → result U) : result U :=
  match r with
  | Ok v => k v
  | Err e => Err e
  end.

(** ** Images and tensors *)

(** A PIL image of mode L: one band of 8-bit intensities, row-major. *)
Record image := Image { width : nat; height : nat; pixels : list Z }.

(** The element types a tensor can have besides float32, the default dtype
    and the one of every parameter of the model: double precision, the
    integer types and bool.  (Half-precision and complex types are left
    out.) *)
Inductive other_dtype :=
  | dt_float64
  | dt_uint8 | dt_int8 | dt_int16 | dt_int32 | dt_int64
  | dt_bool.

(** [dtype.is_floating_point] *)
Definition is_floating_point (dt : other_dtype) : bool :=
  match dt with
  | dt_float64 => true
  | _ => false
  end.

Section Tensors.
Context {A : Type} `{Scalar A}.

Definition zero : A := of_Z 0.

(** The literal [0.5]; the quotient is exact in both instances. *)
Definition lit_0_5 : A := sdiv (of_Z 1) (of_Z 2).

(** A float32 tensor: its sizes and its elements in row-major (contiguous)
    order. *)
Record tensor := Tensor { shape : list nat; data : list A }.

Definition numel (sh : list nat) : nat := foldr Nat.mul 1 sh.

Definition ndim (t : tensor) : nat := length (shape t).

(** The values of the notebook.  [VTensor] is a float32 tensor.  A tensor of
    another dtype is known by its dtype and its sizes; nothing in the notebook
    computes with the elements of one, so they are left out.  An imported
    module is known by its qualified name, the key under which the
    interpreter keeps the one module object. *)
Inductive value :=
  | VNone
  | VInt (z : Z)
  | VImage (img : image)
  | VTensor (t : tensor)
  | VRef (l : positive)
  | VTensorOther (dt : other_dtype) (sh : list nat)
  | VModule (name : string).

(** *** torchvision.transforms *)

(** [ToTensor.__call__]: a PIL image of H x W pixels in [0, 255] becomes a
    float tensor of shape (C x H x W), every byte divided by 255.  Of the
    values here only an image is a picture; a tensor, of whatever dtype, is
    refused.  (NumPy arrays, which [ToTensor] takes as well, are not among
    the values: the datasets hand it PIL images.) *)
Definition to_tensor (pic : value) : result value :=
  match pic with
  | VImage img =>
      Ok (VTensor {| shape := [1; height img; width img];
                     data := map (λ p, sdiv (of_Z p) (of_Z 255)) (pixels img) |})
  | _ => Err (Exn TypeError "pic should be PIL Image or ndarray")
  end.

(** The number of channels and the size of one channel plane of a tensor
    image of size (..., C, H, W). *)
Definition channels (t : tensor) : nat :=
  nth 2 (rev (shape t)) 1.
Definition plane (t : tensor) : nat :=
  nth 1 (rev (shape t)) 1 * nth 0 (rev (shape t)) 1.

(** [mean.view(-1, 1, 1)] broadcast against the image: the statistic that
    applies to the element at flat index [i]. *)
Definition per_channel (t : tensor) (m : list A) : option (nat → A) :=
  match m with
  | [c] => Some (λ _, c)
  | _ => if decide (length m = channels t)
         then Some (λ i, nth ((i / plane t) mod channels t) m zero)
         else None
  end.

(** [F.normalize(tensor, mean, std)]: [tensor.sub_(mean).div_(std)] on a
    clone of the input.  A tensor that is not floating-point is refused; one
    of another floating-point dtype goes through the same checks and keeps
    its dtype and sizes. *)
Definition F_normalize (v : value) (mean std : list A) : result value :=
  match v with
  | VTensor t =>
      if ndim t <? 3 then
        Err (Exn ValueError "Expected tensor to be a tensor image of size (..., C, H, W)")
      else if existsb (λ s, seqb s zero) std then
        Err (Exn ValueError "std evaluated to zero, leading to division by zero")
      else
        match per_channel t mean, per_channel t std with
        | Some m, Some s =>
            Ok (VTensor {| shape := shape t;
                           data := imap (λ i x, sdiv (ssub x (m i)) (s i)) (data t) |})
        | _, _ => Err (Exn RuntimeError "The size of tensor a must match the size of tensor b")
        end
  | VTensorOther dt sh =>
      if negb (is_floating_point dt) then
        Err (Exn TypeError "Input tensor should be a float tensor")
      else if length sh <? 3 then
        Err (Exn ValueError "Expected tensor to be a tensor image of size (..., C, H, W)")
      else if existsb (λ s, seqb s zero) std then
        Err (Exn ValueError "std evaluated to zero, leading to division by zero")
      else
        match per_channel {| shape := sh; data := [] |} mean,
              per_channel {| shape := sh; data := [] |} std with
        | Some _, Some _ => Ok (VTensorOther dt sh)
        | _, _ => Err (Exn RuntimeError "The size of tensor a must match the size of tensor b")
        end
  | _ => Err (Exn TypeError "img should be Tensor Image")
  end.

Inductive transform_obj :=
  | ToTensor
  | Normalize (mean std : list A)
  | Compose (transforms : list transform_obj).

(** [Compose.__call__]: [for t in self.transforms: img = t(img)]. *)
Fixpoint apply_transform (t : transform_obj) (img : value) : result value :=
  match t with
  | ToTensor => to_tensor img
  | Normalize mean std => F_normalize img mean std
  | Compose ts =>
      (fix loop (ts : list transform_obj) (img : value) : result value :=
         match ts with
         | [] => Ok img
         | t :: ts' => rbind (apply_transform t img) (loop ts')
         end) ts img
  end.

(** The [transform] of the notebook. *)
Definition transform : transform_obj :=
  Compose [ToTensor; Normalize [lit_0_5] [lit_0_5]].

(** What [transform] does to one intensity: (v/255 - 0.5)/0.5. *)
Definition rescale (v : Z) : A :=
  sdiv (ssub (sdiv (of_Z v) (of_Z 255)) lit_0_5) lit_0_5.

End Tensors.

Arguments tensor A : clear implicits.
Arguments value A : clear implicits.
Arguments transform_obj A : clear implicits.

(** ** The libraries' sources of randomness

    The parameters of a fresh [nn.Linear] and the order in which a shuffling
    [DataLoader] visits its dataset come from torch's default random
    generator.  Its algorithms are not part of the notebook; the embedding
    takes them as an interface. *)

Class Torch (A : Type) := {
  Generator : Type;
  (** one draw of the initial value of a parameter of a layer with the given
      fan-in *)
  init_draw : nat → Generator → A * Generator;
  (** one draw of a 64-bit integer, as a loader takes for its base seed and a
      [RandomSampler] for the seed of its permutation *)
  next_seed : Generator → nat * Generator;
  (** [torch.randperm(n)] under a generator seeded with the given seed *)
  randperm : nat → nat → list nat
}.

(** The files of the dataset once downloaded: its two splits, every sample an
    image with its label. *)
Record mnist_files := MnistFiles {
  train_split : list (image * Z);
  test_split : list (image * Z)
}.

Abbreviation loc := positive (only parsing).
Abbreviation frame A := (gmap string (value A)) (only parsing).

Section Python.
Context {A : Type} `{Scalar A} `{Torch A}.

(** *** Objects *)

Inductive obj :=
  (** [nn.Linear]: [weight] of shape (out_features, in_features), [bias] of
      shape (out_features) *)
  | OLinear (in_features out_features : nat) (weight bias : tensor A)
  (** an instance of a user-defined [nn.Module] subclass: its [_modules]
      dictionary ([None] until [Module.__init__] has run) and its instance
      [__dict__] *)
  | OModule (modules : option (frame A)) (dict : frame A)
  | OTransform (t : transform_obj A)
  (** [datasets.MNIST]: its arguments and the split it loaded *)
  | OMNIST (root : string) (train : bool) (transform : value A)
           (samples : list (image * Z))
  | ODataLoader (dataset : loc) (batch_size : nat) (shuffle : bool).

(** *** Program state: the heap, the default generator, the local disk and
    what the download mirrors serve ([None] when they cannot be reached) *)

Record state := State {
  heap : gmap loc obj;
  gen : Generator;
  disk : gmap string mnist_files;
  mirror : option mnist_files
}.

Definition set_heap (h : gmap loc obj) (s : state) : state :=
  {| heap := h; gen := gen s; disk := disk s; mirror := mirror s |}.
Definition set_gen (g : Generator) (s : state) : state :=
  {| heap := heap s; gen := g; disk := disk s; mirror := mirror s |}.
Definition set_disk (d : gmap string mnist_files) (s : state) : state :=
  {| heap := heap s; gen := gen s; disk := d; mirror := mirror s |}.

(** *** Computations: a value and a new state, or an exception and the state
    at the point where it was raised *)

Inductive outcome (T : Type) :=
  | Returns (v : T) (s : state)
  | Raises (e : exn) (s : state).
Arguments Returns {T} v s.
Arguments Raises {T} e s.

Definition Py (T : Type) : Type := state → outcome T.

Definition ret {T} (v : T) : Py T := λ s, Returns v s.

Definition raise {T} (cls : exn_class) (msg : string) : Py T :=
  λ s, Raises (Exn cls msg) s.

(** Sequencing.  There is no handler anywhere in the notebook, so an
    exception skips the rest of the computation. *)
Definition bind {T U} (m : Py T) (k : T → Py U) : Py U :=
  λ s, match m s with
       | Returns v s' => k v s'
       | Raises e s' => Raises e s'
       end.

#[global] Instance Py_ret : MRet Py := @ret.
#[global] Instance Py_bind : MBind Py := λ T U k m, bind m k.

(** A call into a library function that touches no state. *)
Definition lift {T} (r : result T) : Py T :=
  λ s, match r with
       | Ok v => Returns v s
       | Err e => Raises e s
       end.

Definition alloc (o : obj) : Py (value A) :=
  λ s, let l := fresh (dom (heap s)) in
       Returns (VRef l) (set_heap (<[l := o]> (heap s)) s).

Definition deref (v : value A) : Py obj :=
  λ s, match v with
       | VRef l =>
           match heap s !! l with
           | Some o => Returns o s
           | None => Raises (Exn RuntimeError "dangling reference") s
           end
       | _ => Raises (Exn AttributeError "object has no such attribute") s
       end.

Fixpoint mapM {T U} (f : T → Py U) (l : list T) : Py (list U) :=
  match l with
  | [] => ret []
  | x :: l' => y ← f x; ys ← mapM f l'; ret (y :: ys)
  end.

(** *** Statements and function bodies *)

Inductive ctl :=
  | Next (f : frame A)
  | Return (v : value A).

Definition expr : Type := frame A → Py (value A).
Definition stmt : Type := frame A → Py ctl.

Definition const (v : value A) : expr := λ _, ret v.

Definition var (name : string) : expr :=
  λ f, match f !! name with
       | Some v => ret v
       | None => raise NameError name
       end.

(** [name = e] *)
Definition assign (name : string) (e : expr) : stmt :=
  λ f, v ← e f; ret (Next (<[name := v]> f)).

(** [return e] *)
Definition return_ (e : expr) : stmt :=
  λ f, v ← e f; ret (Return v).

(** an expression statement *)
Definition do (e : expr) : stmt :=
  λ f, _ ← e f; ret (Next f).

(** [import module as name] ([import module] when the two are the same): the
    name is bound to the module.  The libraries are installed in the
    notebook's kernel, so the import finds them. *)
Definition import_as (module name : string) : stmt :=
  λ f, ret (Next (<[name := VModule module]> f)).

(** [from package import name1, name2, ...], each name a submodule. *)
Definition from_import (package : string) (names : list string) : stmt :=
  λ f, ret (Next (foldl (λ f' n, <[n := VModule (package +:+ "." +:+ n)]> f') f names)).

Definition seq_stmt (s1 s2 : stmt) : stmt :=
  λ f, c ← s1 f;
       match c with
       | Next f' => s2 f'
       | Return v => ret (Return v)
       end.

(** Calling a function: the parameters are bound in a fresh frame, the body
    runs, and a body that ends without [return] gives [None]. *)
Definition call_function (params : list string) (body : stmt)
    (args : list (value A)) : Py (value A) :=
  c ← body (list_to_map (zip params args));
  match c with
  | Next _ => ret VNone
  | Return v => ret v
  end.

(** What a computation gave, the state left out. *)
Definition to_result {T} (o : outcome T) : result T :=
  match o with
  | Returns v _ => Ok v
  | Raises e _ => Err e
  end.

(** The state a computation ends in, whether it returned or raised. *)
Definition final_state {T} (o : outcome T) : state :=
  match o with
  | Returns _ s | Raises _ s => s
  end.

End Python.

Arguments obj A : clear implicits.
Arguments ctl A : clear implicits.
Arguments state A {_}.
Arguments outcome A {_} T.
Arguments Py A {_} T.
Arguments expr A {_}.
Arguments stmt A {_}.
Arguments Returns {A _ T} v s.
Arguments Raises {A _ T} e s.
Arguments final_state {A _ T} o.
Arguments to_result {A _ T} o.

Notation "s1 ;;; s2" := (seq_stmt s1 s2) (at level 90, right associativity).

(** ** torch.nn *)

Section NN.
Context {A : Type} `{Scalar A} `{Torch A}.

Definition dot (xs ws : list A) : A :=
  foldl (λ acc p, sadd acc (smul p.1 p.2)) zero (zip xs ws).

(** Row [i] of a contiguous matrix with [k] columns. *)
Definition row (k i : nat) (d : list A) : list A := take k (drop (i * k) d).

(** [F.linear(input, weight, bias)]: [input @ weight.T + bias] over the last
    dimension of the input.  The parameters are float32; an input tensor of
    any other dtype is refused, whatever its sizes. *)
Definition F_linear (input : value A) (weight bias : tensor A) : result (value A) :=
  match input with
  | VTensor x =>
      match shape weight, last (shape x) with
      | [out_features; in_features], Some k =>
          if decide (k = in_features) then
            if decide (shape bias = [out_features]) then
              let batch := removelast (shape x) in
              Ok (VTensor
                    {| shape := batch ++ [out_features];
                       data :=
                         flat_map
                           (λ i, map (λ j, sadd (dot (row in_features i (data x))
                                                     (row in_features j (data weight)))
                                               (nth j (data bias) zero))
                                     (seq 0 out_features))
                           (seq 0 (numel batch)) |})
            else Err (Exn RuntimeError "The size of tensor a must match the size of tensor b")
          else Err (Exn RuntimeError "mat1 and mat2 shapes cannot be multiplied")
      | [_; _], None =>
          Err (Exn RuntimeError "both arguments to matmul need to be at least 1D")
      | _, _ => Err (Exn RuntimeError "weight must be a matrix")
      end
  | VTensorOther _ _ =>
      Err (Exn RuntimeError "mat1 and mat2 must have the same dtype")
  | _ => Err (Exn TypeError "linear(): argument 'input' must be Tensor")
  end.

(** [torch.relu(input)]: negative elements become zero; dtype and sizes are
    kept.  Boolean tensors are refused. *)
Definition relu (input : value A) : result (value A) :=
  match input with
  | VTensor x =>
      Ok (VTensor {| shape := shape x;
                     data := map (λ a, if sltb a zero then zero else a) (data x) |})
  | VTensorOther dt_bool _ => Err (Exn RuntimeError "Boolean inputs not supported for relu")
  | VTensorOther dt sh => Ok (VTensorOther dt sh)
  | _ => Err (Exn TypeError "relu(): argument 'input' must be Tensor")
  end.

Definition torch_relu (e : expr A) : expr A :=
  λ f, v ← e f; lift (relu v).

(** [n] draws of a parameter initialiser, one element after the other,
    threading the generator. *)
Fixpoint fill_loop (n fan_in : nat) (g : Generator) (acc : list A)
    : list A * Generator :=
  match n with
  | O => (rev_append acc [], g)
  | S n' =>
      let (a, g1) := init_draw fan_in g in
      fill_loop n' fan_in g1 (a :: acc)
  end.

Definition fill (n fan_in : nat) (g : Generator) : list A * Generator :=
  fill_loop n fan_in g [].

(** [nn.Linear(in_features, out_features)]: allocates the weight and the
    bias and fills them from the default generator. *)
Definition nn_Linear (in_features out_features : nat) : expr A :=
  λ _ s,
    let (w, g1) := fill (out_features * in_features) in_features (gen s) in
    let (b, g2) := fill out_features in_features g1 in
    alloc (OLinear in_features out_features
                   {| shape := [out_features; in_features]; data := w |}
                   {| shape := [out_features]; data := b |})
          (set_gen g2 s).

(** [Module.__init__(self)], reached through [super().__init__()]. *)
Definition Module_init (self : expr A) : expr A :=
  λ f, v ← self f;
       o ← deref v;
       match v, o with
       | VRef l, OModule _ d =>
           λ s, Returns VNone (set_heap (<[l := OModule (Some ∅) d]> (heap s)) s)
       | _, _ => raise TypeError "descriptor '__init__' requires a 'Module' object"
       end.

(** [isinstance(v, nn.Module)] *)
Definition is_module_value (h : gmap loc (obj A)) (v : value A) : bool :=
  match v with
  | VRef l =>
      match h !! l with
      | Some (OLinear _ _ _ _) | Some (OModule _ _) => true
      | _ => false
      end
  | _ => false
  end.

(** [target.name = e], with [Module.__setattr__]: a module value is
    registered in [_modules] (and removed from the instance [__dict__]); a
    name already in [_modules] can otherwise only be set to [None]; any other
    value goes to the instance [__dict__]. *)
Definition setattr (target : expr A) (name : string) (e : expr A) : stmt A :=
  λ f, v ← e f;
       t ← target f;
       o ← deref t;
       match t, o with
       | VRef l, OModule ms d =>
           λ s,
             let store o' := Returns (Next f) (set_heap (<[l := o']> (heap s)) s) in
             if is_module_value (heap s) v then
               match ms with
               | Some m => store (OModule (Some (<[name := v]> m)) (delete name d))
               | None =>
                   Raises (Exn AttributeError
                             "cannot assign module before Module.__init__() call") s
               end
             else
               match ms with
               | Some m =>
                   match m !! name, v with
                   | Some _, VNone => store (OModule (Some (<[name := VNone]> m)) d)
                   | Some _, _ =>
                       Raises (Exn TypeError
                                 "cannot assign as child module (torch.nn.Module or None expected)") s
                   | None, _ => store (OModule ms (<[name := v]> d))
                   end
               | None => store (OModule ms (<[name := v]> d))
               end
       | _, _ => raise AttributeError "cannot set attribute"
       end.

(** [e.name]: the instance [__dict__] first, then, through
    [Module.__getattr__], [_modules]. *)
Definition getattr (e : expr A) (name : string) : expr A :=
  λ f, v ← e f;
       o ← deref v;
       match o with
       | OModule ms d =>
           match d !! name, ms ≫= (.!! name) with
           | Some a, _ => ret a
           | None, Some a => ret a
           | None, None => raise AttributeError name
           end
       | _ => raise AttributeError name
       end.

(** [fn(arg)] for a library module [fn]: [Module.__call__] runs the module's
    [forward], which for [nn.Linear] is [F.linear] with the layer's own
    parameters.  The notebook calls no other kind of object; a callee that is
    itself an instance of a user-defined module is outside the embedding. *)
Definition call (fn arg : expr A) : expr A :=
  λ f, c ← fn f;
       a ← arg f;
       o ← deref c;
       match o with
       | OLinear _ _ w b => lift (F_linear a w b)
       | OModule _ _ => raise RuntimeError "call of a user-defined module: not in the notebook"
       | _ => raise TypeError "object is not callable"
       end.

(** *** class LinearModel(nn.Module) *)

Definition LinearModel_init : stmt A :=
  do (Module_init (var "self")) ;;;
  setattr (var "self") "fc1" (nn_Linear 784 64) ;;;
  setattr (var "self") "fc2" (nn_Linear 64 10).

Definition LinearModel_forward : stmt A :=
  assign "x" (torch_relu (call (getattr (var "self") "fc1") (var "x"))) ;;;
  assign "x" (call (getattr (var "self") "fc2") (var "x")).

(** [LinearModel()]: a new instance, initialised by [__init__]. *)
Definition LinearModel : Py A (value A) :=
  self ← alloc (OModule None ∅);
  r ← call_function ["self"] LinearModel_init [self];
  match r with
  | VNone => ret self
  | _ => raise TypeError "__init__() should return None"
  end.

(** [model.forward(x)] *)
Definition forward (model x : value A) : Py A (value A) :=
  call_function ["self"; "x"] LinearModel_forward [model; x].

(** The value the model would compute: two affine layers with a rectifier
    between them. *)
Definition two_layer (w1 b1 w2 b2 : tensor A) (x : value A) : result (value A) :=
  rbind (rbind (F_linear x w1 b1) relu) (λ h, F_linear h w2 b2).

End NN.

(** ** torchvision.datasets and torch.utils.data *)

Section Data.
Context {A : Type} `{Scalar A} `{Torch A}.

(** Constructing a transform gives a new object. *)
Definition new_transform (t : transform_obj A) : expr A :=
  λ _, alloc (OTransform t).

(** [MNIST.download]: nothing to do when the files are already under
    [root]; otherwise they are fetched from the mirrors. *)
Definition MNIST_download (root : string) : Py A () :=
  λ s, match disk s !! root with
       | Some _ => Returns () s
       | None =>
           match mirror s with
           | Some files => Returns () (set_disk (<[root := files]> (disk s)) s)
           | None => Raises (Exn RuntimeError "Error downloading train-images-idx3-ubyte.gz") s
           end
       end.

(** [MNIST._load_data], after the [_check_exists] test of the constructor. *)
Definition MNIST_load (root : string) : Py A mnist_files :=
  λ s, match disk s !! root with
       | Some files => Returns files s
       | None =>
           Raises (Exn RuntimeError
                     "Dataset not found. You can use download=True to download it") s
       end.

(** [datasets.MNIST(root, train, download, transform)] *)
Definition datasets_MNIST (root : string) (train download : bool)
    (transform : expr A) : expr A :=
  λ f, t ← transform f;
       _ ← (if download then MNIST_download root else ret ());
       files ← MNIST_load root;
       alloc (OMNIST root train t
                (if train then train_split files else test_split files)).

(** [MNIST.__getitem__(index)] *)
Definition MNIST_getitem (ds : obj A) (index : nat) : Py A (value A * Z) :=
  match ds with
  | OMNIST _ _ t samples =>
      match samples !! index with
      | Some (img, target) =>
          match t with
          | VNone => ret (VImage img, target)
          | _ =>
              tr ← deref t;
              match tr with
              | OTransform tf =>
                  v ← lift (apply_transform tf (VImage img)); ret (v, target)
              | _ => raise TypeError "object is not callable"
              end
          end
      | None => raise IndexError "index out of range"
      end
  | _ => raise TypeError "object is not subscriptable"
  end.

(** [len(dataset)] *)
Definition dataset_len (ds : obj A) : Py A nat :=
  match ds with
  | OMNIST _ _ _ samples => ret (length samples)
  | _ => raise TypeError "object of this type has no len()"
  end.

(** [RandomSampler(dataset)]: refuses an empty dataset. *)
Definition RandomSampler_init (ds : obj A) : Py A () :=
  num_samples ← dataset_len ds;
  if bool_decide (num_samples = 0) then
    raise ValueError "num_samples should be a positive integer value"
  else ret ().

(** [DataLoader(dataset, batch_size, shuffle)]: with [shuffle=True] the
    loader builds a [RandomSampler], otherwise a [SequentialSampler]; then
    the [BatchSampler], which refuses a batch size that is not positive. *)
Definition DataLoader (dataset batch_size : expr A) (shuffle : bool) : expr A :=
  λ f, d ← dataset f;
       b ← batch_size f;
       match d, b with
       | VRef l, VInt n =>
           ds ← deref d;
           _ ← (if shuffle then RandomSampler_init ds else ret ());
           if (0 <? n)%Z then alloc (ODataLoader l (Z.to_nat n) shuffle)
           else raise ValueError "batch_size should be a positive integer value"
       | _, VInt _ => raise TypeError "object of this type has no len()"
       | _, _ => raise ValueError "batch_size should be a positive integer value"
       end.

(** [BatchSampler.__iter__] with [drop_last=False]:
    [batch.append(idx)], yield when [len(batch) == batch_size], and yield what
    is left at the end if it is not empty. *)
Fixpoint BatchSampler_loop (batch_size : nat) (sampler batch : list nat)
    : list (list nat) :=
  match sampler with
  | [] => if decide (0 < length batch) then [batch] else []
  | idx :: rest =>
      let batch' := batch ++ [idx] in
      if decide (length batch' = batch_size)
      then batch' :: BatchSampler_loop batch_size rest []
      else BatchSampler_loop batch_size rest batch'
  end.

Definition BatchSampler (batch_size : nat) (sampler : list nat) : list (list nat) :=
  BatchSampler_loop batch_size sampler [].

(** [torch.empty((), dtype=torch.int64).random_().item()]: an integer drawn
    from the default generator. *)
Definition random_int64 : Py A nat :=
  λ s, let (seed, g) := next_seed (gen s) in Returns seed (set_gen g s).

(** The sampler a loader uses: [SequentialSampler] gives [range(n)];
    [RandomSampler] draws a seed from the default generator and gives
    [randperm(n)] under it. *)
Definition sampler (shuffle : bool) (n : nat) : Py A (list nat) :=
  if shuffle then seed ← random_int64; ret (randperm seed n)
  else ret (seq 0 n).

(** [default_collate] on a batch of (tensor, label) samples: the tensors are
    stacked along a new first dimension. *)
Definition default_collate (batch : list (value A * Z))
    : result (value A * list Z) :=
  match batch with
  | (VTensor t0, _) :: _ =>
      if forallb (λ p, match p.1 with
                       | VTensor t => bool_decide (shape t = shape t0)
                       | _ => false
                       end) batch
      then Ok (VTensor {| shape := length batch :: shape t0;
                          data := flat_map (λ p, match p.1 with
                                                 | VTensor t => data t
                                                 | _ => []
                                                 end) batch |},
               map snd batch)
      else Err (Exn RuntimeError "stack expects each tensor to be equal size")
  | _ => Err (Exn TypeError "default_collate: batch must contain tensors")
  end.

Definition fetch (ds : obj A) (indices : list nat) : Py A (value A * list Z) :=
  samples ← mapM (MNIST_getitem ds) indices;
  lift (default_collate samples).

(** The batches of indices of one iteration.  Creating the iterator draws
    the loader's base seed from the default generator, whether the loader
    shuffles or not; then the sampler runs and its indices are cut into
    batches by the [BatchSampler]. *)
Definition batch_indices (loader : value A) : Py A (list (list nat)) :=
  o ← deref loader;
  match o with
  | ODataLoader d bs sh =>
      _ ← random_int64;
      ds ← deref (VRef d);
      n ← dataset_len ds;
      indices ← sampler sh n;
      ret (BatchSampler bs indices)
  | _ => raise TypeError "object is not iterable"
  end.

(** One complete iteration, [list(loader)]: every batch of indices is
    fetched from the dataset and collated. *)
Definition iterate (loader : value A) : Py A (list (value A * list Z)) :=
  batches ← batch_indices loader;
  o ← deref loader;
  match o with
  | ODataLoader d _ _ => ds ← deref (VRef d); mapM (fetch ds) batches
  | _ => raise TypeError "object is not iterable"
  end.

(** *** The dataset cell *)

Definition train_dataset : expr A :=
  datasets_MNIST "./data" true true (var "transform").
Definition test_dataset : expr A :=
  datasets_MNIST "./data" false true (var "transform").

Definition batch_size : value A := VInt 64.

Definition train_loader : expr A :=
  DataLoader (var "train_dataset") (var "batch_size") true.
Definition test_loader : expr A :=
  DataLoader (var "test_dataset") (var "batch_size") false.

Definition dataset_cell : stmt A :=
  import_as "torch" "torch" ;;;
  import_as "torch.nn" "nn" ;;;
  import_as "torch.optim" "optim" ;;;
  from_import "torchvision" ["datasets"; "transforms"] ;;;
  assign "transform" (new_transform transform) ;;;
  assign "train_dataset" train_dataset ;;;
  assign "test_dataset" test_dataset ;;;
  assign "batch_size" (const batch_size) ;;;
  assign "train_loader" train_loader ;;;
  assign "test_loader" test_loader.

(** A computation whose result is a function of the heap, and which leaves
    the heap as it was: whatever the generator state (which it may advance)
    and the disk, on a state with heap [h] it gives the result [r]. *)
Definition heap_determined {T} (h : gmap loc (obj A)) (m : Py A T) : Prop :=
  ∃ r : result T,
    ∀ s, heap s = h → to_result (m s) = r ∧ heap (final_state (m s)) = h.

(** The seed a [RandomSampler] draws in an iteration that starts with the
    generator in state [g]: the second draw, after the loader's base seed. *)
Definition sampler_seed (g : Generator) : nat :=
  (next_seed (next_seed g).2).1.

End Data.

(** ** Conversions between PyTorch, NumPy and TensorFlow tensors *)

Module Interop.

Inductive dtype := int32 | int64.

Definition bits (d : dtype) : Z :=
  match d with int32 => 32 | int64 => 64 end.

Definition in_range (d : dtype) (z : Z) : bool :=
  ((- 2 ^ (bits d - 1) <=? z) && (z <? 2 ^ (bits d - 1)))%Z.

(** A C-style cast to a signed integer type: wrap-around. *)
Definition cast (d : dtype) (z : Z) : Z :=
  ((z + 2 ^ (bits d - 1)) mod 2 ^ bits d - 2 ^ (bits d - 1))%Z.

Record torch_Tensor := TorchTensor {
  torch_dtype : dtype; torch_shape : list nat; torch_data : list Z }.
Record np_ndarray := NdArray {
  np_dtype : dtype; np_shape : list nat; np_data : list Z }.
Record tf_Tensor := TfTensor {
  tf_dtype : dtype; tf_shape : list nat; tf_data : list Z }.

(** [torch.tensor(data, dtype=d)] on a Python list of integers. *)
Definition torch_tensor_of_list (l : list Z) (d : dtype) : result torch_Tensor :=
  if forallb (in_range d) l
  then Ok {| torch_dtype := d; torch_shape := [length l]; torch_data := l |}
  else Err (Exn RuntimeError "value cannot be converted to type without overflow").

(** [Tensor.numpy()]: the array shares the tensor's storage. *)
Definition Tensor_numpy (t : torch_Tensor) : np_ndarray :=
  {| np_dtype := torch_dtype t; np_shape := torch_shape t; np_data := torch_data t |}.

(** [tf.convert_to_tensor(array)]: the dtype is the array's. *)
Definition tf_convert_to_tensor (a : np_ndarray) : tf_Tensor :=
  {| tf_dtype := np_dtype a; tf_shape := np_shape a; tf_data := np_data a |}.

(** [tf.constant(data, dtype=d)] on a Python list of integers. *)
Definition tf_constant (l : list Z) (d : dtype) : result tf_Tensor :=
  if forallb (in_range d) l
  then Ok {| tf_dtype := d; tf_shape := [length l]; tf_data := l |}
  else Err (Exn ValueError "out-of-range integer for dtype").

(** [EagerTensor.numpy()] *)
Definition EagerTensor_numpy (t : tf_Tensor) : np_ndarray :=
  {| np_dtype := tf_dtype t; np_shape := tf_shape t; np_data := tf_data t |}.

(** [torch.tensor(array, dtype=d)] on a NumPy array: a copy, cast to [d]. *)
Definition torch_tensor_of_ndarray (a : np_ndarray) (d : dtype) : torch_Tensor :=
  {| torch_dtype := d; torch_shape := np_shape a;
     torch_data := map (cast d) (np_data a) |}.

(** [str(t.dtype)] in the two libraries. *)
Definition torch_dtype_str (d : dtype) : string :=
  match d with int32 => "torch.int32" | int64 => "torch.int64" end.
Definition tf_dtype_str (d : dtype) : string :=
  match d with int32 => "<dtype: 'int32'>" | int64 => "<dtype: 'int64'>" end.

(** The variables of the conversion cell when it ends, the two values that
    were rebound on the way, and what the cell printed. *)
Record conversion_env := ConversionEnv {
  first_pytorch_tensor : torch_Tensor;
  first_tf_tensor : tf_Tensor;
  tf_tensor : tf_Tensor;
  numpy_array : np_ndarray;
  pytorch_tensor : torch_Tensor;
  stdout : list string
}.

Definition conversion_cell : result conversion_env :=
  rbind (torch_tensor_of_list [1; 2; 3]%Z int32) (λ pytorch_tensor0,
  let tf_tensor0 := tf_convert_to_tensor (Tensor_numpy pytorch_tensor0) in
  let out1 := [torch_dtype_str (torch_dtype pytorch_tensor0);
               tf_dtype_str (tf_dtype tf_tensor0)] in
  rbind (tf_constant [1; 2; 3]%Z int32) (λ tf_tensor1,
  let numpy_array1 := EagerTensor_numpy tf_tensor1 in
  let pytorch_tensor1 := torch_tensor_of_ndarray numpy_array1 int32 in
  let out2 := [("TensorFlow Tensor: " ++ tf_dtype_str (tf_dtype tf_tensor1))%string;
               ("PyTorch Tensor: " ++ torch_dtype_str (torch_dtype pytorch_tensor1))%string] in
  Ok {| first_pytorch_tensor := pytorch_tensor0;
        first_tf_tensor := tf_tensor0;
        tf_tensor := tf_tensor1;
        numpy_array := numpy_array1;
        pytorch_tensor := pytorch_tensor1;
        stdout := out1 ++ out2 |})).

End Interop.

(** ** A stand-in generator

    A small deterministic instance of the generator interface, for running
    the programs on concrete inputs: draws count up from the generator
    state, and [randperm] rotates the identity by the seed. *)

Definition counter_torch {A : Type} `{Scalar A} : Torch A :=
  {| Generator := Z;
     init_draw := λ _ g, (of_Z g, (g + 1)%Z);
     next_seed := λ g, (Z.to_nat g, (g + 1)%Z);
     randperm := λ seed n, rotate seed (seq 0 n) |}.

(** Checks on images, as booleans. *)
Definition pixel_ok (p : Z) : bool := ((0 <=? p) && (p <=? 255))%Z.

Definition image_ok (img : image) : bool :=
  (length (pixels img) =? height img * width img) && forallb pixel_ok (pixels img).

(** ** The class invariant of [LinearModel]

    What [__init__] establishes and [forward] relies on: the instance at [l]
    has exactly the two submodules [fc1] and [fc2] and no instance attribute,
    and they are two distinct [nn.Linear] layers, 784 to 64 and 64 to 10,
    whose parameters have the matching sizes. *)

Definition linear_wf {A : Type} (in_features out_features : nat)
    (weight bias : tensor A) : Prop :=
  shape weight = [out_features; in_features]
  ∧ length (data weight) = out_features * in_features
  ∧ shape bias = [out_features]
  ∧ length (data bias) = out_features.

Definition is_linear_model {A : Type} `{Torch A} (s : state A) (l : loc)
    (w1 b1 w2 b2 : tensor A) : Prop :=
  ∃ l1 l2 : loc,
    heap s !! l
    = Some (OModule (Some {[ "fc1" := VRef l1; "fc2" := VRef l2 ]}) ∅)
    ∧ l1 ≠ l2 ∧ l ≠ l1 ∧ l ≠ l2
    ∧ heap s !! l1 = Some (OLinear 784 64 w1 b1)
    ∧ heap s !! l2 = Some (OLinear 64 10 w2 b2)
    ∧ linear_wf 784 64 w1 b1
    ∧ linear_wf 64 10 w2 b2.

(** ** What a loader's batch holds

    The batch for a list of indices into a list of samples whose images are
    all H x W: the transformed images at those indices stacked along a new
    first axis, and the labels at those indices. *)

Definition batch_of {A : Type} `{Scalar A} (samples : list (image * Z))
    (h w : nat) (indices : list nat) : value A * list Z :=
  (VTensor {| shape := [length indices; 1; h; w];
              data := flat_map (λ i, map rescale
                                       (pixels (nth i samples (Image 0 0 [], 0%Z)).1))
                               indices |},
   map (λ i, (nth i samples (Image 0 0 [], 0%Z)).2) indices).

(** ** Sample inputs *)

(** A 28 x 28 sample whose intensities run through all of 0..255. *)
Definition sample_image : image :=
  {| width := 28; height := 28;
     pixels := map (λ n, Z.of_nat (n mod 256)) (seq 0 784) |}.

(** A two-pixel image holding the two extreme intensities. *)
Definition black_white : image :=
  {| width := 2; height := 1; pixels := [0; 255]%Z |}.

(** A tensor whose elements cycle through -1, 0, 1. *)
Fixpoint cycle {A : Type} `{Scalar A} (n : nat) (z : Z) : list A :=
  match n with
  | O => []
  | S n' => of_Z (z mod 3 - 1) :: cycle n' (z + 1)
  end.

Definition pattern {A : Type} `{Scalar A} (sh : list nat) : tensor A :=
  {| shape := sh; data := cycle (numel sh) 0 |}.

(** The stand-in generator over exact rationals. *)
Definition Qc_torch : Torch Qc := @counter_torch Qc Qc_scalar.

(** A state holding one [LinearModel] at location 1, its layers at 2 and 3. *)
Definition sample_state : @state Qc Qc_torch :=
  {| heap := {[ 1%positive := OModule (Some {[ "fc1" := VRef 2%positive;
                                               "fc2" := VRef 3%positive ]}) ∅;
                2%positive := OLinear 784 64 (pattern [64; 784]) (pattern [64]);
                3%positive := OLinear 64 10 (pattern [10; 64]) (pattern [10]) ]};
     gen := (0%Z : @Generator Qc Qc_torch); disk := ∅; mirror := None |}.

(** The sample image as the transform delivers it, of shape (1, 28, 28), and
    flattened to one row of 784 values. *)
Definition sample_tensor : tensor Qc :=
  {| shape := [1; 28; 28]; data := map rescale (pixels sample_image) |}.
Definition flat_sample : tensor Qc :=
  {| shape := [1; 784]; data := map rescale (pixels sample_image) |}.

(** A small copy of the dataset, and two states of the world before the
    dataset cell runs: nothing on disk and the mirrors reachable, and nothing
    on disk and the mirrors out of reach. *)
Definition sample_files : mnist_files :=
  {| train_split := [(sample_image, 5%Z); (sample_image, 0%Z); (sample_image, 4%Z)];
     test_split := [(sample_image, 7%Z); (sample_image, 2%Z)] |}.

Definition online_state : @state Qc Qc_torch :=
  {| heap := ∅; gen := (0%Z : @Generator Qc Qc_torch);
     disk := ∅; mirror := Some sample_files |}.

Definition offline_state : @state Qc Qc_torch :=
  {| heap := ∅; gen := (0%Z : @Generator Qc Qc_torch);
     disk := ∅; mirror := None |}.

(** * Properties *)

(** ** The transform *)

Section TransformFacts.
Context {A : Type} `{Scalar A}.

Lemma normalize_to_tensor (img : image) :
  seqb (lit_0_5 (A:=A)) zero = false →
  apply_transform transform (VImage img)
  = Ok (VTensor {| shape := [1; height img; width img];
                   data := map rescale (pixels img) |}).
Proof.
  intros Hstd. cbn [apply_transform transform to_tensor rbind F_normalize].
  cbn [ndim shape length Nat.ltb Nat.leb existsb per_channel data].
  rewrite Hstd. cbn [orb rbind]. do 3 f_equal.
  etrans; [apply (imap_const (λ x : A, sdiv (ssub x lit_0_5) lit_0_5))|].
  apply map_map.
Qed.

End TransformFacts.

(** Every 8-bit intensity is one of 256 values, so a decidable property of
    intensities can be settled by running it on all of them. *)
Lemma forall_pixels (f : Z → bool) :
  forallb (λ n, f (Z.of_nat n)) (seq 0 256) = true →
  ∀ v, pixel_ok v = true → f v = true.
Proof.
  intros Hall v Hv. unfold pixel_ok in Hv.
  apply andb_prop in Hv as [H0 H255].
  apply Z.leb_le in H0, H255.
  rewrite forallb_forall in Hall.
  rewrite <- (Z2Nat.id v) by assumption.
  apply Hall, in_seq. lia.
Qed.

Lemma Qc_leb_le (x y : Qc) : Qc_leb x y = true → (x <= y)%Qc.
Proof.
  unfold Qc_leb, Qcle, Qccompare. intros Hc.
  apply Qle_alt. intros Hgt. rewrite Hgt in Hc. discriminate.
Qed.

(** In exact arithmetic [rescale] is the affine map v ↦ (2/255) v - 1. *)
Lemma rescale_Qc_affine (v : Z) :
  rescale v = (Q2Qc (2 # 255) * of_Z v - 1)%Qc.
Proof.
  unfold rescale, lit_0_5. cbn [of_Z sdiv ssub Qc_scalar].
  assert (H255 : Q2Qc (inject_Z 255) ≠ 0%Qc) by (intros Hz; discriminate Hz).
  assert (H2 : Q2Qc (inject_Z 2) ≠ 0%Qc) by (intros Hz; discriminate Hz).
  assert (E1 : Q2Qc (inject_Z 1) = 1%Qc) by (apply Qc_is_canon; reflexivity).
  assert (E2 : Q2Qc (2 # 255) = (Q2Qc (inject_Z 2) / Q2Qc (inject_Z 255))%Qc)
    by (apply Qc_is_canon; reflexivity).
  rewrite E1, E2. clear E1 E2.
  generalize dependent (Q2Qc (inject_Z 255)).
  generalize dependent (Q2Qc (inject_Z 2)).
  intros c2 H2 c255 H255. field.
  repeat split; try assumption. intros Hz; discriminate Hz.
Qed.

Lemma rescale_Qc_0 : rescale (A:=Qc) 0 = (-1)%Qc.
Proof. apply Qc_is_canon. reflexivity. Qed.

Lemma rescale_Qc_255 : rescale (A:=Qc) 255 = 1%Qc.
Proof. apply Qc_is_canon. reflexivity. Qed.

Lemma rescale_Qc_range (v : Z) :
  pixel_ok v = true → (-1 <= rescale v)%Qc ∧ (rescale v <= 1)%Qc.
Proof.
  intros Hv.
  pose proof (forall_pixels
                (λ v, Qc_leb (-1) (rescale v) && Qc_leb (rescale v) 1)) as Hall.
  cbv beta in Hall. specialize (Hall ltac:(vm_compute; reflexivity) v Hv).
  apply andb_prop in Hall as [Hlo Hhi].
  split; apply Qc_leb_le; assumption.
Qed.

Lemma rescale_f32_0 : rescale (A:=f32) 0 = of_Z (-1).
Proof. vm_compute. reflexivity. Qed.

Lemma rescale_f32_255 : rescale (A:=f32) 255 = of_Z 1.
Proof. vm_compute. reflexivity. Qed.

Lemma rescale_f32_range (v : Z) :
  pixel_ok v = true →
  sleb (of_Z (-1)) (rescale (A:=f32) v) = true ∧ sleb (rescale (A:=f32) v) (of_Z 1) = true.
Proof.
  intros Hv.
  pose proof (forall_pixels
                (λ v, sleb (of_Z (-1)) (rescale (A:=f32) v)
                      && sleb (rescale (A:=f32) v) (of_Z 1))) as Hall.
  cbv beta in Hall. specialize (Hall ltac:(vm_compute; reflexivity) v Hv).
  apply andb_prop in Hall. exact Hall.
Qed.

Lemma std_nonzero_Qc : seqb (lit_0_5 (A:=Qc)) zero = false.
Proof. reflexivity. Qed.

Lemma std_nonzero_f32 : seqb (lit_0_5 (A:=f32)) zero = false.
Proof. reflexivity. Qed.

Lemma map_lookup {T U} (f : T → U) (l : list T) (i : nat) :
  map f l !! i = f <$> l !! i.
Proof. apply (list_lookup_fmap f l i). Qed.

(** C1: under [transform] (ToTensor, then Normalize((0.5,), (0.5,))), a pixel
    of intensity 0 becomes exactly -1 and a pixel of intensity 255 becomes
    exactly 1, at whatever position of whatever image it stands; in exact
    arithmetic and in binary32. *)
Theorem transform_maps_0_and_255 (img : image) (i : nat) :
  (∃ t : tensor Qc,
      apply_transform transform (VImage img) = Ok (VTensor t)
      ∧ (pixels img !! i = Some 0%Z → data t !! i = Some (-1)%Qc)
      ∧ (pixels img !! i = Some 255%Z → data t !! i = Some 1%Qc))
  ∧ (∃ t : tensor f32,
      apply_transform transform (VImage img) = Ok (VTensor t)
      ∧ (pixels img !! i = Some 0%Z → data t !! i = Some (of_Z (-1)))
      ∧ (pixels img !! i = Some 255%Z → data t !! i = Some (of_Z 1))).
Proof.
  split.
  - eexists. split; [apply normalize_to_tensor, std_nonzero_Qc|].
    cbn [data]. split; intros Hp.
    + rewrite map_lookup, Hp, <- rescale_Qc_0. reflexivity.
    + rewrite map_lookup, Hp, <- rescale_Qc_255. reflexivity.
  - eexists. split; [apply normalize_to_tensor, std_nonzero_f32|].
    cbn [data]. split; intros Hp.
    + rewrite map_lookup, Hp, <- rescale_f32_0. reflexivity.
    + rewrite map_lookup, Hp, <- rescale_f32_255. reflexivity.
Qed.

Lemma transform_maps_0_and_255_witness :
  (∃ t : tensor Qc,
      apply_transform transform (VImage black_white) = Ok (VTensor t)
      ∧ (pixels black_white !! 0 = Some 0%Z → data t !! 0 = Some (-1)%Qc)
      ∧ (pixels black_white !! 0 = Some 255%Z → data t !! 0 = Some 1%Qc))
  ∧ (∃ t : tensor f32,
      apply_transform transform (VImage black_white) = Ok (VTensor t)
      ∧ (pixels black_white !! 0 = Some 0%Z → data t !! 0 = Some (of_Z (-1)))
      ∧ (pixels black_white !! 0 = Some 255%Z → data t !! 0 = Some (of_Z 1))).
Proof. exact (transform_maps_0_and_255 black_white 0). Defined.

Lemma image_ok_spec (img : image) :
  image_ok img = true →
  length (pixels img) = height img * width img
  ∧ Forall (λ p, pixel_ok p = true) (pixels img).
Proof.
  unfold image_ok. intros Hok. apply andb_prop in Hok as [Hlen Hpix].
  split.
  - apply Nat.eqb_eq, Hlen.
  - apply Forall_forall. intros p Hp. apply list_elem_of_In in Hp.
    rewrite forallb_forall in Hpix. apply Hpix, Hp.
Qed.

(** C5: [transform] turns a raw 28 x 28 single-channel sample into a tensor
    of the same extent (1 channel x 28 x 28, 784 elements); element [i] is
    the image of pixel [i] under the one map v ↦ (v/255 - 0.5)/0.5, which is
    affine ((2/255) v - 1), and every element lies in [-1, 1]; in exact
    arithmetic and in binary32. *)
Theorem transform_sample (img : image) :
  height img = 28 → width img = 28 → image_ok img = true →
  (∃ t : tensor Qc,
      apply_transform transform (VImage img) = Ok (VTensor t)
      ∧ shape t = [1; 28; 28] ∧ length (data t) = 784
      ∧ data t = map rescale (pixels img)
      ∧ (∀ v, rescale v = (Q2Qc (2 # 255) * of_Z v - 1)%Qc)
      ∧ Forall (λ a, (-1 <= a)%Qc ∧ (a <= 1)%Qc) (data t))
  ∧ (∃ t : tensor f32,
      apply_transform transform (VImage img) = Ok (VTensor t)
      ∧ shape t = [1; 28; 28] ∧ length (data t) = 784
      ∧ data t = map rescale (pixels img)
      ∧ Forall (λ a, sleb (of_Z (-1)) a = true ∧ sleb a (of_Z 1) = true) (data t)).
Proof.
  intros Hh Hw Hok. apply image_ok_spec in Hok as [Hlen Hpix].
  rewrite Hh, Hw in Hlen. split.
  - eexists. split; [apply normalize_to_tensor, std_nonzero_Qc|].
    cbn [shape data]. rewrite Hh, Hw, length_map.
    repeat split; try assumption.
    + apply rescale_Qc_affine.
    + apply Forall_map. eapply Forall_impl; [exact Hpix|].
      intros p Hp. apply rescale_Qc_range, Hp.
  - eexists. split; [apply normalize_to_tensor, std_nonzero_f32|].
    cbn [shape data]. rewrite Hh, Hw, length_map.
    repeat split; try assumption.
    apply Forall_map. eapply Forall_impl; [exact Hpix|].
    intros p Hp. apply rescale_f32_range, Hp.
Qed.

Lemma transform_sample_witness :
  ∃ t : tensor f32,
    apply_transform transform (VImage sample_image) = Ok (VTensor t)
    ∧ shape t = [1; 28; 28] ∧ length (data t) = 784
    ∧ data t = map rescale (pixels sample_image)
    ∧ Forall (λ a, sleb (of_Z (-1)) a = true ∧ sleb a (of_Z 1) = true) (data t).
Proof.
  apply (transform_sample sample_image); [reflexivity | reflexivity | vm_compute; reflexivity].
Defined.

(** ** The model *)

Section ModelFacts.
Context {A : Type} `{Scalar A} `{Torch A}.

Lemma bind_Raises {T U} (m : Py A T) (k : T → Py A U) s e s' :
  m s = Raises e s' → (m ≫= k) s = Raises e s'.
Proof. intros Hm. unfold mbind, Py_bind, bind. rewrite Hm. reflexivity. Qed.

Lemma bind_Returns {T U} (m : Py A T) (k : T → Py A U) s v s' :
  m s = Returns v s' → (m ≫= k) s = k v s'.
Proof. intros Hm. unfold mbind, Py_bind, bind. rewrite Hm. reflexivity. Qed.

(** One step of a computation: the first part of a sequence is known to
    return. *)
Tactic Notation "step" uconstr(H) := rewrite (bind_Returns _ _ _ _ _ H).

Lemma var_run (f : gmap string (value A)) name v s :
  f !! name = Some v → var name f s = Returns v s.
Proof. intros Hf. unfold var. rewrite Hf. reflexivity. Qed.

Lemma deref_run (s : state A) l o :
  heap s !! l = Some o → deref (VRef l) s = Returns o s.
Proof. intros Hl. unfold deref. rewrite Hl. reflexivity. Qed.

Lemma fresh_lookup (h : gmap loc (obj A)) : h !! fresh (dom h) = None.
Proof. apply not_elem_of_dom, is_fresh. Qed.

Lemma fill_loop_length n k g (acc : list A) :
  length (fill_loop n k g acc).1 = n + length acc.
Proof.
  revert g acc. induction n as [|n IH]; intros g acc; cbn [fill_loop].
  - cbn [fst]. by rewrite rev_append_rev, length_app, length_rev.
  - destruct (init_draw k g) as [a g1]. rewrite IH. cbn [length]. lia.
Qed.

Lemma fill_length n k g : length (fill n k g).1 = n.
Proof. unfold fill. rewrite fill_loop_length. cbn [length]. lia. Qed.

Lemma nn_Linear_run i o f s :
  ∃ w b g,
    nn_Linear i o f s
    = Returns (VRef (fresh (dom (heap s))))
        {| heap := <[fresh (dom (heap s)) := OLinear i o w b]> (heap s);
           gen := g; disk := disk s; mirror := mirror s |}
    ∧ linear_wf i o w b.
Proof.
  unfold nn_Linear.
  pose proof (fill_length (o * i) i (gen s)) as Hw.
  destruct (fill (o * i) i (gen s)) as [w g1].
  pose proof (fill_length o i g1) as Hb.
  destruct (fill o i g1) as [b g2].
  eexists _, _, g2. split; [reflexivity|].
  repeat split; assumption.
Qed.

Lemma setattr_linear (f : gmap string (value A)) s l m d name i o :
  f !! "self" = Some (VRef l) →
  heap s !! l = Some (OModule (Some m) d) →
  ∃ w b g,
    setattr (var "self") name (nn_Linear i o) f s
    = Returns (Next f)
        {| heap := <[l := OModule (Some (<[name := VRef (fresh (dom (heap s)))]> m))
                                  (delete name d)]>
                     (<[fresh (dom (heap s)) := OLinear i o w b]> (heap s));
           gen := g; disk := disk s; mirror := mirror s |}
    ∧ linear_wf i o w b
    ∧ fresh (dom (heap s)) ≠ l.
Proof.
  intros Hself Hl.
  destruct (nn_Linear_run i o f s) as (w & b & g & Hrun & Hwf).
  exists w, b, g. 
  assert (Hne : fresh (dom (heap s)) ≠ l).
  { intros Heq. pose proof (fresh_lookup (heap s)) as Hf. rewrite Heq in Hf. congruence. }
  split; [|split; assumption].
  unfold setattr. step Hrun.
  step (var_run _ _ _ _ Hself).
  erewrite bind_Returns; cycle 1.
  { apply deref_run. cbn [heap]. rewrite lookup_insert_ne by exact Hne. exact Hl. }
  unfold is_module_value. cbn [heap]. rewrite lookup_insert_eq.
  unfold set_heap. cbn [heap gen disk mirror]. reflexivity.
Qed.


Lemma Module_init_run (f : gmap string (value A)) s l ms d :
  f !! "self" = Some (VRef l) →
  heap s !! l = Some (OModule ms d) →
  do (Module_init (var "self")) f s
  = Returns (Next f) (set_heap (<[l := OModule (Some ∅) d]> (heap s)) s).
Proof.
  intros Hself Hl. unfold do, Module_init.
  erewrite bind_Returns; [reflexivity|].
  step (var_run _ _ _ _ Hself).
  step (deref_run _ _ _ Hl).
  reflexivity.
Qed.

Lemma LinearModel_run s :
  ∃ w1 b1 w2 b2 g l l1 l2,
    LinearModel s
    = Returns (VRef l)
        {| heap := <[l := OModule (Some {[ "fc1" := VRef l1; "fc2" := VRef l2 ]}) ∅]>
                     (<[l2 := OLinear 64 10 w2 b2]>
                        (<[l1 := OLinear 784 64 w1 b1]> (heap s)));
           gen := g; disk := disk s; mirror := mirror s |}
    ∧ heap s !! l = None ∧ heap s !! l1 = None ∧ heap s !! l2 = None
    ∧ l ≠ l1 ∧ l ≠ l2 ∧ l1 ≠ l2
    ∧ linear_wf 784 64 w1 b1 ∧ linear_wf 64 10 w2 b2.
Proof.
  set (l := fresh (dom (heap s))).
  set (f := <["self" := VRef l]> ∅ : gmap string (value A)).
  assert (Hself : f !! "self" = Some (VRef l)) by apply lookup_insert_eq.
  assert (Hl : heap s !! l = None) by apply fresh_lookup.
  (* the instance is allocated, then Module.__init__ runs *)
  set (s1 := set_heap (<[l := OModule None ∅]> (heap s)) s).
  set (s2 := set_heap (<[l := OModule (Some ∅) ∅]> (heap s1)) s1).
  assert (H2 : heap s2 !! l = Some (OModule (Some ∅) ∅)) by apply lookup_insert_eq.
  destruct (setattr_linear f s2 l ∅ ∅ "fc1" 784 64 Hself H2)
    as (w1 & b1 & g1 & Hfc1 & Hwf1 & Hne1).
  set (l1 := fresh (dom (heap s2))) in *.
  match type of Hfc1 with _ = Returns _ ?s' => set (s3 := s') in * end.
  assert (H3 : heap s3 !! l = Some (OModule (Some (<["fc1" := VRef l1]> ∅)) (delete "fc1" ∅)))
    by apply lookup_insert_eq.
  destruct (setattr_linear f s3 l _ _ "fc2" 64 10 Hself H3)
    as (w2 & b2 & g2 & Hfc2 & Hwf2 & Hne2).
  set (l2 := fresh (dom (heap s3))) in *.
  assert (Hl1 : heap s !! l1 = None).
  { pose proof (fresh_lookup (heap s2)) as Hf. fold l1 in Hf.
    subst s2 s1. cbn [heap set_heap] in Hf.
    rewrite !lookup_insert_ne in Hf by exact (not_eq_sym Hne1). exact Hf. }
  assert (Hl2 : heap s !! l2 = None ∧ l1 ≠ l2).
  { pose proof (fresh_lookup (heap s3)) as Hf. fold l2 in Hf.
    subst s3 s2 s1. cbn [heap set_heap] in Hf.
    rewrite lookup_insert_ne in Hf by exact (not_eq_sym Hne2).
    destruct (decide (l1 = l2)) as [Heq|Hne12].
    - rewrite <- Heq, lookup_insert_eq in Hf. discriminate.
    - rewrite lookup_insert_ne in Hf by exact Hne12.
      rewrite !lookup_insert_ne in Hf by exact (not_eq_sym Hne2). by split. }
  destruct Hl2 as [Hl2 Hne12].
  exists w1, b1, w2, b2, g2, l, l1, l2.
  split;
    [|exact (conj Hl (conj Hl1 (conj Hl2 (conj (not_eq_sym Hne1)
               (conj (not_eq_sym Hne2) (conj Hne12 (conj Hwf1 Hwf2)))))))].
  unfold LinearModel.
  erewrite bind_Returns; [|reflexivity].
  fold l. fold s1.
  erewrite bind_Returns; cycle 1.
  { unfold call_function. cbn [zip zip_with list_to_map foldr fst snd]. fold f.
    erewrite bind_Returns; cycle 1.
    { unfold LinearModel_init, seq_stmt.
      erewrite bind_Returns; cycle 1.
      { apply (Module_init_run f s1 l None ∅ Hself). apply lookup_insert_eq. }
      fold s2. cbv beta iota.
      erewrite bind_Returns; [|exact Hfc1].
      exact Hfc2. }
    reflexivity. }
  unfold mret, Py_ret, ret. f_equal.
  subst s3 s2 s1. cbn [heap gen disk mirror set_heap]. f_equal.
  rewrite !delete_empty.
  apply map_eq. intros k.
  destruct (decide (k = l)) as [->|Hkl].
  { rewrite !lookup_insert_eq. do 3 f_equal. }
  rewrite !(lookup_insert_ne _ l k) by done.
  destruct (decide (k = l2)) as [->|Hkl2].
  { by rewrite !lookup_insert_eq. }
  rewrite !(lookup_insert_ne _ l2 k) by done.
  rewrite !(lookup_insert_ne _ l k) by done.
  destruct (decide (k = l1)) as [->|Hkl1].
  { by rewrite !lookup_insert_eq. }
  rewrite !(lookup_insert_ne _ l1 k) by done.
  rewrite !(lookup_insert_ne _ l k) by done. reflexivity.
Qed.

Lemma getattr_submodule (e : expr A) name f s l m d v :
  e f s = Returns (VRef l) s →
  heap s !! l = Some (OModule (Some m) d) →
  d !! name = None → m !! name = Some v →
  getattr e name f s = Returns v s.
Proof.
  intros He Hl Hd Hm. unfold getattr.
  step He.
  step (deref_run _ _ _ Hl).
  rewrite Hd. cbn [mbind option_bind]. rewrite Hm. reflexivity.
Qed.

Lemma call_linear (fn arg : expr A) f s lf a i o w b :
  fn f s = Returns (VRef lf) s →
  arg f s = Returns a s →
  heap s !! lf = Some (OLinear i o w b) →
  call fn arg f s = lift (F_linear a w b) s.
Proof.
  intros Hfn Harg Hl. unfold call.
  step Hfn.
  step Harg.
  step (deref_run _ _ _ Hl).
  reflexivity.
Qed.

Lemma call_fc (name : string) f s l ls i o w b a l1 l2 :
  f !! "self" = Some (VRef l) →
  f !! "x" = Some a →
  heap s !! l = Some (OModule (Some {[ "fc1" := VRef l1; "fc2" := VRef l2 ]}) ∅) →
  ({[ "fc1" := VRef l1; "fc2" := VRef l2 ]} : gmap string (value A)) !! name = Some (VRef ls) →
  heap s !! ls = Some (OLinear i o w b) →
  call (getattr (var "self") name) (var "x") f s = lift (F_linear a w b) s.
Proof.
  intros Hself Hx Hl Hname Hls.
  eapply call_linear; [|apply var_run, Hx|exact Hls].
  eapply getattr_submodule; [apply var_run, Hself|exact Hl|apply lookup_empty|exact Hname].
Qed.

Lemma forward_body s l w1 b1 w2 b2 x :
  is_linear_model s l w1 b1 w2 b2 →
  LinearModel_forward (list_to_map (zip ["self"; "x"] [VRef l; x])) s
  = match two_layer w1 b1 w2 b2 x with
    | Ok y => Returns (Next (<["x" := y]> (list_to_map (zip ["self"; "x"] [VRef l; x])))) s
    | Err e => Raises e s
    end.
Proof.
  intros (l1 & l2 & Hl & Hne & Hne1 & Hne2 & Hl1 & Hl2 & Hw1 & Hw2).
  cbn [zip zip_with list_to_map foldr fst snd].
  set (f0 := <["self" := VRef l]> (<["x" := x]> ∅) : gmap string (value A)).
  assert (Hself : ∀ v, (<["x" := v]> f0) !! "self" = Some (VRef l)).
  { intros v. subst f0. by simplify_map_eq. }
  assert (Hc1 : call (getattr (var "self") "fc1") (var "x") f0 s
                = lift (F_linear x w1 b1) s).
  { eapply call_fc; [by subst f0; simplify_map_eq .. | exact Hl | by simplify_map_eq | exact Hl1]. }
  assert (Hc2 : ∀ h, call (getattr (var "self") "fc2") (var "x") (<["x" := h]> f0) s
                     = lift (F_linear h w2 b2) s).
  { intros h.
    eapply call_fc;
      [apply Hself | by simplify_map_eq | exact Hl | by simplify_map_eq | exact Hl2]. }
  unfold LinearModel_forward, seq_stmt, assign, torch_relu, two_layer.
  unfold mbind, Py_bind, bind, mret, Py_ret, ret.
  rewrite Hc1. destruct (F_linear x w1 b1) as [h1|e]; cbn [lift rbind]; [|reflexivity].
  destruct (relu h1) as [h2|e]; cbn [lift rbind]; [|reflexivity].
  rewrite Hc2. destruct (F_linear h2 w2 b2) as [y|e]; cbn [lift]; [|reflexivity].
  rewrite insert_insert_eq. reflexivity.
Qed.

Lemma forward_run s l w1 b1 w2 b2 x :
  is_linear_model s l w1 b1 w2 b2 →
  forward (VRef l) x s
  = match two_layer w1 b1 w2 b2 x with
    | Ok _ => Returns VNone s
    | Err e => Raises e s
    end.
Proof.
  intros Hm. unfold forward, call_function.
  unfold mbind, Py_bind, bind. rewrite (forward_body _ _ _ _ _ _ _ Hm).
  destruct (two_layer w1 b1 w2 b2 x); reflexivity.
Qed.

Lemma F_linear_ok (w b : tensor A) i o (x : tensor A) :
  linear_wf i o w b → last (shape x) = Some i →
  ∃ y, F_linear (VTensor x) w b = Ok (VTensor y)
       ∧ shape y = removelast (shape x) ++ [o].
Proof.
  intros (Hw & _ & Hb & _) Hlast. unfold F_linear.
  rewrite Hw, Hlast, Hb. rewrite !decide_True by reflexivity.
  eexists. split; reflexivity.
Qed.

Lemma F_linear_shape_mismatch (w b : tensor A) i o (x : tensor A) :
  linear_wf i o w b → last (shape x) ≠ Some i →
  ∃ e, F_linear (VTensor x) w b = Err e ∧ exn_cls e = RuntimeError.
Proof.
  intros (Hw & _ & Hb & _) Hlast. unfold F_linear. rewrite Hw.
  destruct (last (shape x)) as [k|]; [|eexists; split; reflexivity].
  rewrite decide_False by congruence. eexists; split; reflexivity.
Qed.

Lemma F_linear_type_mismatch (w b : tensor A) (x : value A) :
  (∀ t, x ≠ VTensor t) → (∀ dt sh, x ≠ VTensorOther dt sh) →
  F_linear x w b = Err (Exn TypeError "linear(): argument 'input' must be Tensor").
Proof.
  intros Hx Hdt. destruct x as [| | |t| |dt sh|]; try reflexivity.
  - by destruct (Hx t).
  - by destruct (Hdt dt sh).
Qed.

Lemma F_linear_dtype_mismatch (w b : tensor A) (dt : other_dtype) (sh : list nat) :
  F_linear (VTensorOther dt sh) w b
  = Err (Exn RuntimeError "mat1 and mat2 must have the same dtype").
Proof. reflexivity. Qed.

Lemma relu_ok (x : tensor A) :
  ∃ y, relu (VTensor x) = Ok (VTensor y) ∧ shape y = shape x.
Proof. eexists. split; reflexivity. Qed.

Lemma last_snoc_Some {T} (l : list T) (a : T) : last (l ++ [a]) = Some a.
Proof. apply last_snoc. Qed.

Lemma two_layer_valid w1 b1 w2 b2 (x : tensor A) :
  linear_wf 784 64 w1 b1 → linear_wf 64 10 w2 b2 →
  last (shape x) = Some 784 →
  ∃ h1 h2 y : tensor A,
    F_linear (VTensor x) w1 b1 = Ok (VTensor h1)
    ∧ relu (VTensor h1) = Ok (VTensor h2)
    ∧ F_linear (VTensor h2) w2 b2 = Ok (VTensor y)
    ∧ shape y = removelast (shape x) ++ [10]
    ∧ two_layer w1 b1 w2 b2 (VTensor x) = Ok (VTensor y).
Proof.
  intros Hwf1 Hwf2 Hlast.
  destruct (F_linear_ok w1 b1 784 64 x Hwf1 Hlast) as (h1 & Hh1 & Hs1).
  destruct (relu_ok h1) as (h2 & Hh2 & Hs2).
  assert (Hlast2 : last (shape h2) = Some 64).
  { rewrite Hs2, Hs1. apply last_snoc_Some. }
  destruct (F_linear_ok w2 b2 64 10 h2 Hwf2 Hlast2) as (y & Hy & Hsy).
  exists h1, h2, y. repeat split; try assumption.
  - rewrite Hsy, Hs2, Hs1. by rewrite removelast_last.
  - unfold two_layer. rewrite Hh1. cbn [rbind]. rewrite Hh2. cbn [rbind]. exact Hy.
Qed.

End ModelFacts.

Lemma pattern_length {A} `{Scalar A} (sh : list nat) :
  length (data (pattern sh)) = numel sh.
Proof.
  unfold pattern. cbn [data]. generalize 0%Z.
  induction (numel sh) as [|n IH]; intros z; [reflexivity|].
  cbn [cycle length]. by rewrite IH.
Qed.

Lemma sample_state_model :
  is_linear_model sample_state 1%positive
    (pattern [64; 784]) (pattern [64]) (pattern [10; 64]) (pattern [10]).
Proof.
  exists 2%positive, 3%positive.
  repeat split; try reflexivity; try discriminate; apply pattern_length.
Qed.

Section ModelClaims.
Context {A : Type} `{Scalar A} `{Torch A}.

(** C4: every [LinearModel()] is a new instance holding exactly two
    submodules, [fc1] and [fc2], and no other attribute; [fc1] is a Linear
    layer from 784 inputs to 64 outputs with a 64 x 784 weight and a bias of
    64, [fc2] one from 64 inputs to 10 outputs with a 10 x 64 weight and a
    bias of 10, so the output size of [fc1] is the input size of [fc2]. *)
Theorem LinearModel_init_layers (s : state A) :
  ∃ (l l1 l2 : loc) (w1 b1 w2 b2 : tensor A) (s' : state A),
    LinearModel s = Returns (VRef l) s'
    ∧ heap s !! l = None
    ∧ heap s' !! l
      = Some (OModule (Some {[ "fc1" := VRef l1; "fc2" := VRef l2 ]}) ∅)
    ∧ l1 ≠ l2
    ∧ heap s' !! l1 = Some (OLinear 784 64 w1 b1)
    ∧ heap s' !! l2 = Some (OLinear 64 10 w2 b2)
    ∧ shape w1 = [64; 784] ∧ length (data w1) = 64 * 784
    ∧ shape b1 = [64] ∧ length (data b1) = 64
    ∧ shape w2 = [10; 64] ∧ length (data w2) = 10 * 64
    ∧ shape b2 = [10] ∧ length (data b2) = 10
    ∧ numel [1; 28; 28] = 784
    ∧ is_linear_model s' l w1 b1 w2 b2.
Proof.
  destruct (LinearModel_run s)
    as (w1 & b1 & w2 & b2 & g & l & l1 & l2 & Hrun & Hl & Hl1 & Hl2
        & Hne1 & Hne2 & Hne12 & Hwf1 & Hwf2).
  exists l, l1, l2, w1, b1, w2, b2. eexists. split; [exact Hrun|].
  cbn [heap].
  set (model := OModule (Some {[ "fc1" := VRef l1; "fc2" := VRef l2 ]}) ∅).
  set (h' := <[l := model]> (<[l2 := OLinear 64 10 w2 b2]>
                               (<[l1 := OLinear 784 64 w1 b1]> (heap s)))).
  assert (Hm : h' !! l = Some model) by apply lookup_insert_eq.
  assert (H1 : h' !! l1 = Some (OLinear 784 64 w1 b1)).
  { unfold h'. rewrite !lookup_insert_ne by done. apply lookup_insert_eq. }
  assert (H2 : h' !! l2 = Some (OLinear 64 10 w2 b2)).
  { unfold h'. rewrite lookup_insert_ne by done. apply lookup_insert_eq. }
  destruct Hwf1 as (Hw1 & Hdw1 & Hb1 & Hdb1).
  destruct Hwf2 as (Hw2 & Hdw2 & Hb2 & Hdb2).
  repeat (split; [first [assumption | reflexivity]|]).
  exists l1, l2. cbn [heap]. fold model h'.
  repeat (split; [assumption|]).
  repeat split; assumption.
Qed.

(** C3: on a model as [__init__] builds it and a tensor whose last dimension
    is 784, the body of [forward] runs to its end, and the value its local
    [x] then holds is [fc2(relu(fc1(x)))]: the second layer's output itself,
    with nothing applied after it. *)
Theorem forward_computes_fc2_relu_fc1 s l w1 b1 w2 b2 (x : tensor A) :
  is_linear_model s l w1 b1 w2 b2 →
  last (shape x) = Some 784 →
  ∃ h1 h2 y : tensor A,
    F_linear (VTensor x) w1 b1 = Ok (VTensor h1)
    ∧ relu (VTensor h1) = Ok (VTensor h2)
    ∧ F_linear (VTensor h2) w2 b2 = Ok (VTensor y)
    ∧ shape y = removelast (shape x) ++ [10]
    ∧ ∃ f' : gmap string (value A),
        LinearModel_forward (list_to_map (zip ["self"; "x"] [VRef l; VTensor x])) s
        = Returns (Next f') s
        ∧ f' !! "x" = Some (VTensor y).
Proof.
  intros Hm Hlast.
  pose proof Hm as (l1 & l2 & _ & _ & _ & _ & _ & _ & Hwf1 & Hwf2).
  destruct (two_layer_valid w1 b1 w2 b2 x Hwf1 Hwf2 Hlast)
    as (h1 & h2 & y & Hh1 & Hh2 & Hy & Hshape & Htwo).
  exists h1, h2, y. repeat (split; [assumption|]).
  eexists. split.
  - rewrite (forward_body s l w1 b1 w2 b2 (VTensor x) Hm), Htwo. reflexivity.
  - apply lookup_insert_eq.
Qed.

(** C2, as amended: on a model as [__init__] builds it, [forward] returns
    [None] on every float32 tensor whose last dimension is 784, and on no
    input at all does it return anything but [None].  On every other input
    it raises, in the state it was called in: a float32 tensor of another
    last dimension and a tensor of another dtype (whatever its sizes, 784
    included) make the first layer raise [RuntimeError], a value that is no
    tensor makes it raise [TypeError]. *)
Theorem forward_returns_None s l w1 b1 w2 b2 :
  is_linear_model s l w1 b1 w2 b2 →
  (∀ t : tensor A, last (shape t) = Some 784 →
     forward (VRef l) (VTensor t) s = Returns VNone s)
  ∧ (∀ (x v : value A) (s' : state A),
       forward (VRef l) x s = Returns v s' → v = VNone)
  ∧ (∀ x : value A,
       (∀ t, x = VTensor t → last (shape t) ≠ Some 784) →
       ∃ e, forward (VRef l) x s = Raises e s)
  ∧ (∀ t : tensor A, last (shape t) ≠ Some 784 →
       ∃ e, forward (VRef l) (VTensor t) s = Raises e s ∧ exn_cls e = RuntimeError)
  ∧ (∀ (dt : other_dtype) (sh : list nat),
       ∃ e, forward (VRef l) (VTensorOther dt sh) s = Raises e s
            ∧ exn_cls e = RuntimeError)
  ∧ (∀ x : value A,
       (∀ t, x ≠ VTensor t) → (∀ dt sh, x ≠ VTensorOther dt sh) →
       ∃ e, forward (VRef l) x s = Raises e s ∧ exn_cls e = TypeError).
Proof.
  intros Hm.
  pose proof Hm as (l1 & l2 & _ & _ & _ & _ & _ & _ & Hwf1 & Hwf2).
  assert (Hfirst : ∀ (x : value A) e,
            F_linear x w1 b1 = Err e → forward (VRef l) x s = Raises e s).
  { intros x e Hx. rewrite (forward_run s l w1 b1 w2 b2 x Hm).
    unfold two_layer. rewrite Hx. reflexivity. }
  assert (Hshape : ∀ t : tensor A, last (shape t) ≠ Some 784 →
            ∃ e, forward (VRef l) (VTensor t) s = Raises e s ∧ exn_cls e = RuntimeError).
  { intros t Hlast.
    destruct (F_linear_shape_mismatch w1 b1 784 64 t Hwf1 Hlast) as (e & He & Hcls).
    exists e. split; [by apply Hfirst | exact Hcls]. }
  assert (Hdtype : ∀ (dt : other_dtype) (sh : list nat),
            ∃ e, forward (VRef l) (VTensorOther dt sh) s = Raises e s
                 ∧ exn_cls e = RuntimeError).
  { intros dt sh. eexists. split; [apply Hfirst, F_linear_dtype_mismatch | reflexivity]. }
  assert (Htype : ∀ x : value A,
            (∀ t, x ≠ VTensor t) → (∀ dt sh, x ≠ VTensorOther dt sh) →
            ∃ e, forward (VRef l) x s = Raises e s ∧ exn_cls e = TypeError).
  { intros x Hx Hdt. eexists.
    split; [apply Hfirst, F_linear_type_mismatch; assumption | reflexivity]. }
  split.
  { intros t Hlast. rewrite (forward_run s l w1 b1 w2 b2 _ Hm).
    destruct (two_layer_valid w1 b1 w2 b2 t Hwf1 Hwf2 Hlast)
      as (h1 & h2 & y & _ & _ & _ & _ & Htwo).
    rewrite Htwo. reflexivity. }
  split.
  { intros x v s'. rewrite (forward_run s l w1 b1 w2 b2 _ Hm).
    destruct (two_layer w1 b1 w2 b2 x); intros Hr; [|discriminate].
    by injection Hr as <- _. }
  split; [|by repeat split].
  intros x Hx. destruct x as [| | |t| |dt sh|].
  - destruct (Htype VNone) as (e & He & _); [done..|]. by exists e.
  - destruct (Htype (VInt z)) as (e & He & _); [done..|]. by exists e.
  - destruct (Htype (VImage img)) as (e & He & _); [done..|]. by exists e.
  - destruct (Hshape t (Hx t eq_refl)) as (e & He & _). by exists e.
  - destruct (Htype (VRef l0)) as (e & He & _); [done..|]. by exists e.
  - destruct (Hdtype dt sh) as (e & He & _). by exists e.
  - destruct (Htype (VModule name)) as (e & He & _); [done..|]. by exists e.
Qed.

(** C8: a call of [forward], whether it returns or raises, ends in the state
    it started in: the instance still has just its two submodules and an
    empty instance dictionary (the output is stored nowhere), and the layers
    still hold the same weights and biases. *)
Theorem forward_preserves_model s l w1 b1 w2 b2 (x : value A) :
  is_linear_model s l w1 b1 w2 b2 →
  final_state (forward (VRef l) x s) = s
  ∧ is_linear_model (final_state (forward (VRef l) x s)) l w1 b1 w2 b2.
Proof.
  intros Hm.
  assert (Hs : final_state (forward (VRef l) x s) = s).
  { rewrite (forward_run s l w1 b1 w2 b2 _ Hm).
    destruct (two_layer w1 b1 w2 b2 x); reflexivity. }
  split; [exact Hs|]. rewrite Hs. exact Hm.
Qed.

End ModelClaims.

Lemma forward_computes_fc2_relu_fc1_witness :
  ∃ h1 h2 y : tensor Qc,
    F_linear (VTensor flat_sample) (pattern [64; 784]) (pattern [64]) = Ok (VTensor h1)
    ∧ relu (VTensor h1) = Ok (VTensor h2)
    ∧ F_linear (VTensor h2) (pattern [10; 64]) (pattern [10]) = Ok (VTensor y)
    ∧ shape y = removelast (shape flat_sample) ++ [10]
    ∧ ∃ f' : gmap string (value Qc),
        LinearModel_forward
          (list_to_map (zip ["self"; "x"] [VRef 1%positive; VTensor flat_sample]))
          sample_state
        = Returns (Next f') sample_state
        ∧ f' !! "x" = Some (VTensor y).
Proof.
  apply (forward_computes_fc2_relu_fc1 sample_state 1%positive).
  - exact sample_state_model.
  - reflexivity.
Defined.

(** The claim C2 as stated fails: on the sample as the transform delivers
    it, of shape (1, 28, 28), [forward] raises instead of returning [None],
    on a freshly constructed model as on the sample one. *)
Lemma forward_raises_on_image_tensor :
  to_result ((model ← LinearModel; forward model (VTensor sample_tensor)) offline_state)
  = Err (Exn RuntimeError "mat1 and mat2 shapes cannot be multiplied")
  ∧ forward (VRef 1%positive) (VTensor sample_tensor) sample_state
    = Raises (Exn RuntimeError "mat1 and mat2 shapes cannot be multiplied") sample_state
  ∧ ¬ (∀ x : value Qc,
         ∃ s', forward (VRef 1%positive) x sample_state = Returns VNone s').
Proof.
  assert (Hrun : forward (VRef 1%positive) (VTensor sample_tensor) sample_state
    = Raises (Exn RuntimeError "mat1 and mat2 shapes cannot be multiplied") sample_state).
  { rewrite (forward_run _ _ _ _ _ _ _ sample_state_model). reflexivity. }
  split; [vm_compute; reflexivity|].
  split; [exact Hrun|].
  intros Hall. destruct (Hall (VTensor sample_tensor)) as [s' Hs'].
  rewrite Hrun in Hs'. discriminate.
Qed.

Lemma forward_returns_None_witness :
  forward (VRef 1%positive) (VTensor flat_sample) sample_state
  = Returns VNone sample_state
  ∧ (∃ e, forward (VRef 1%positive) (VTensorOther dt_float64 [1; 784]) sample_state
          = Raises e sample_state
          ∧ exn_cls e = RuntimeError)
  ∧ (∃ e, forward (VRef 1%positive) (VImage sample_image) sample_state
          = Raises e sample_state
          ∧ exn_cls e = TypeError).
Proof.
  destruct (forward_returns_None sample_state 1%positive _ _ _ _ sample_state_model)
    as (Hok & _ & _ & _ & Hdtype & Htype).
  split; [apply Hok; reflexivity|].
  split; [apply Hdtype|].
  apply Htype; discriminate.
Defined.

Lemma forward_preserves_model_witness :
  final_state (forward (VRef 1%positive) (VTensor sample_tensor) sample_state)
  = sample_state.
Proof.
  apply (forward_preserves_model sample_state 1%positive _ _ _ _
           (VTensor sample_tensor) sample_state_model).
Defined.

(** A freshly constructed model run on the flattened sample, end to end. *)
Example constructed_model_runs :
  to_result ((model ← LinearModel; forward model (VTensor flat_sample)) offline_state)
  = Ok VNone.
Proof. vm_compute. reflexivity. Qed.

(** ** Datasets and loaders *)

Section Fresh.
Context {A : Type}.

(** Five allocations in a row give five new, pairwise different locations. *)
Lemma fresh_chain (h0 : gmap loc (obj A)) (o0 o1 o2 o3 : obj A) :
  let l0 := fresh (dom h0) in
  let h1 := <[l0 := o0]> h0 in
  let l1 := fresh (dom h1) in
  let h2 := <[l1 := o1]> h1 in
  let l2 := fresh (dom h2) in
  let h3 := <[l2 := o2]> h2 in
  let l3 := fresh (dom h3) in
  let h4 := <[l3 := o3]> h3 in
  let l4 := fresh (dom h4) in
  NoDup [l0; l1; l2; l3; l4] ∧ Forall (λ l, h0 !! l = None) [l0; l1; l2; l3; l4].
Proof.
  intros l0 h1 l1 h2 l2 h3 l3 h4 l4.
  pose proof (is_fresh (dom h0)) as F0. fold l0 in F0.
  pose proof (is_fresh (dom h1)) as F1. fold l1 in F1.
  pose proof (is_fresh (dom h2)) as F2. fold l2 in F2.
  pose proof (is_fresh (dom h3)) as F3. fold l3 in F3.
  pose proof (is_fresh (dom h4)) as F4. fold l4 in F4.
  unfold h4 in F4. unfold h3 in F3, F4. unfold h2 in F2, F3, F4.
  unfold h1 in F1, F2, F3, F4.
  clearbody l0 l1 l2 l3 l4. clear h1 h2 h3 h4.
  repeat match goal with
         | F : context [dom (<[_ := _]> _)] |- _ => rewrite dom_insert_L in F
         end.
  repeat match goal with
         | F : context [_ ∉ _ ∪ _] |- _ => rewrite not_elem_of_union in F
         | F : context [_ ∉ {[ _ ]}] |- _ => rewrite not_elem_of_singleton in F
         end.
  destruct F1 as [N10 F1], F2 as (N21 & N20 & F2), F3 as (N32 & N31 & N30 & F3),
    F4 as (N43 & N42 & N41 & N40 & F4).
  split.
  - repeat (apply NoDup_cons; split;
            [rewrite ?not_elem_of_cons; repeat split; auto using not_elem_of_nil|]).
    apply NoDup_nil_2.
  - repeat (apply Forall_cons; split; [by apply not_elem_of_dom|]).
    apply Forall_nil_2.
Qed.
End Fresh.

Section DataFacts.
Context {A : Type} `{Scalar A} `{Torch A}.

Lemma BatchSampler_loop_concat bs (l acc : list nat) :
  concat (BatchSampler_loop bs l acc) = acc ++ l.
Proof.
  revert acc. induction l as [|idx rest IH]; intros acc; cbn [BatchSampler_loop].
  - case_decide as Hlen; cbn [concat].
    + by rewrite !app_nil_r.
    + destruct acc; [reflexivity|]. cbn [length] in Hlen. lia.
  - case_decide; cbn [concat]; rewrite IH.
    + by rewrite <- app_assoc.
    + by rewrite <- app_assoc.
Qed.

Lemma BatchSampler_concat bs (l : list nat) : concat (BatchSampler bs l) = l.
Proof. apply (BatchSampler_loop_concat bs l []). Qed.

Lemma BatchSampler_loop_lengths bs (l acc : list nat) :
  length acc < bs →
  Forall (λ b, 0 < length b ≤ bs) (BatchSampler_loop bs l acc).
Proof.
  revert acc. induction l as [|idx rest IH]; intros acc Hacc; cbn [BatchSampler_loop].
  - case_decide; constructor; [lia|constructor].
  - case_decide as Hlen.
    + constructor; [lia|]. apply IH. cbn [length]. lia.
    + apply IH. rewrite length_app in *. cbn [length] in *. lia.
Qed.

Lemma BatchSampler_lengths bs (l : list nat) :
  0 < bs → Forall (λ b, 0 < length b ≤ bs) (BatchSampler bs l).
Proof. intros Hbs. by apply BatchSampler_loop_lengths. Qed.

Lemma BatchSampler_loop_full bs (b l acc : list nat) :
  0 < length b → length (acc ++ b) = bs →
  BatchSampler_loop bs (b ++ l) acc = (acc ++ b) :: BatchSampler_loop bs l [].
Proof.
  revert acc. induction b as [|x b IH]; intros acc Hpos Hlen; [by inversion Hpos|].
  cbn [app BatchSampler_loop]. rewrite length_app in Hlen. cbn [length] in Hlen.
  destruct b as [|y b].
  - rewrite decide_True by (rewrite length_app; cbn [length] in *; lia). reflexivity.
  - rewrite decide_False by (rewrite length_app; cbn [length] in *; lia).
    change (acc ++ x :: y :: b) with (acc ++ [x] ++ (y :: b)).
    rewrite (app_assoc acc [x]). apply IH; [cbn [length]; lia|].
    rewrite !length_app. cbn [length] in *. lia.
Qed.

(** A full first batch is yielded as it stands. *)
Lemma BatchSampler_full bs (b l : list nat) :
  0 < bs → length b = bs → BatchSampler bs (b ++ l) = b :: BatchSampler bs l.
Proof.
  intros Hbs Hlen. unfold BatchSampler.
  by rewrite (BatchSampler_loop_full bs b l []) by (cbn [app]; lia).
Qed.

Lemma BatchSampler_loop_short bs (b acc : list nat) :
  0 < length (acc ++ b) → length (acc ++ b) < bs →
  BatchSampler_loop bs b acc = [acc ++ b].
Proof.
  revert acc. induction b as [|x b IH]; intros acc Hpos Hlen; cbn [BatchSampler_loop].
  - rewrite app_nil_r in *. by rewrite decide_True.
  - rewrite decide_False by (rewrite !length_app in *; cbn [length] in *; lia).
    rewrite IH; rewrite <- ?app_assoc; cbn [app]; try done.
Qed.

(** What is left at the end is yielded as a last, shorter batch. *)
Lemma BatchSampler_short bs (b : list nat) :
  0 < length b < bs → BatchSampler bs b = [b].
Proof. intros [Hpos Hlen]. by apply (BatchSampler_loop_short bs b []). Qed.


Lemma heap_determined_ret {T} h (v : T) : heap_determined h (mret v : Py A T).
Proof. exists (Ok v). intros s Hs. by split. Qed.

Lemma heap_determined_raise {T} h cls msg :
  heap_determined h (raise cls msg : Py A T).
Proof. exists (Err (Exn cls msg)). intros s Hs. by split. Qed.

Lemma heap_determined_lift {T} h (r : result T) : heap_determined h (lift r : Py A T).
Proof. exists r. intros s Hs. by destruct r. Qed.

Lemma heap_determined_deref h (v : value A) : heap_determined h (deref v).
Proof.
  destruct v as [| | | |l| |];
    try (exists (Err (Exn AttributeError "object has no such attribute"));
         intros s Hs; by split).
  destruct (h !! l) as [o|] eqn:Hl.
  - exists (Ok o). intros s <-. unfold deref. rewrite Hl. by split.
  - exists (Err (Exn RuntimeError "dangling reference")). intros s <-.
    unfold deref. rewrite Hl. by split.
Qed.

Lemma heap_determined_bind {T U} h (m : Py A T) (k : T → Py A U) :
  heap_determined h m → (∀ x, heap_determined h (k x)) → heap_determined h (m ≫= k).
Proof.
  intros [[x|e] Hm] Hk.
  - destruct (Hk x) as [r Hr]. exists r. intros s Hs.
    unfold mbind, Py_bind, bind. destruct (Hm s Hs) as [Hres Hheap].
    destruct (m s) as [x' s'|e' s']; [|discriminate].
    injection Hres as ->. exact (Hr s' Hheap).
  - exists (Err e). intros s Hs.
    unfold mbind, Py_bind, bind. destruct (Hm s Hs) as [Hres Hheap].
    destruct (m s) as [x' s'|e' s']; [discriminate|].
    cbn [to_result final_state] in *. injection Hres as ->. by split.
Qed.

(** A draw from the generator changes nothing a heap-determined computation
    depends on. *)
Lemma heap_determined_after_draw {T} h (m : Py A T) :
  heap_determined h m → heap_determined h (random_int64 ≫= λ _, m).
Proof.
  intros [r Hr]. exists r. intros s Hs.
  unfold mbind, Py_bind, bind, random_int64.
  destruct (next_seed (gen s)) as [seed g]. apply Hr. exact Hs.
Qed.

Lemma heap_determined_mapM {T U} h (f : T → Py A U) (l : list T) :
  (∀ x, heap_determined h (f x)) → heap_determined h (mapM f l).
Proof.
  intros Hf. induction l as [|x l IH]; cbn [mapM].
  - apply heap_determined_ret.
  - apply heap_determined_bind; [apply Hf|]. intros y.
    apply heap_determined_bind; [apply IH|]. intros ys. apply heap_determined_ret.
Qed.

Create HintDb heap_det discriminated.
#[local] Hint Resolve heap_determined_ret heap_determined_raise heap_determined_lift
  heap_determined_deref heap_determined_bind heap_determined_mapM : heap_det.

Lemma heap_determined_getitem h (ds : obj A) (i : nat) :
  heap_determined h (MNIST_getitem ds i).
Proof.
  unfold MNIST_getitem.
  destruct ds as [| | |root train t samples|]; auto with heap_det.
  destruct (samples !! i) as [[img target]|]; auto with heap_det.
  assert (Hcall : heap_determined h
            (deref t ≫= λ tr,
               match tr with
               | OTransform tf =>
                   lift (apply_transform tf (VImage img)) ≫= λ v, mret (v, target)
               | _ => raise TypeError "object is not callable"
               end)).
  { apply heap_determined_bind; [auto with heap_det|].
    intros [| |tf| |]; auto with heap_det. }
  destruct t; first [exact Hcall | apply heap_determined_ret].
Qed.

Lemma heap_determined_fetch h (ds : obj A) (indices : list nat) :
  heap_determined h (fetch ds indices).
Proof.
  unfold fetch. apply heap_determined_bind.
  - apply heap_determined_mapM. intros i. apply heap_determined_getitem.
  - intros samples. apply heap_determined_lift.
Qed.

(** [batch_indices] on a loader that does not shuffle. *)
Lemma batch_indices_sequential (s : state A) l d bs root train t samples :
  heap s !! l = Some (ODataLoader d bs false) →
  heap s !! d = Some (OMNIST root train t samples) →
  batch_indices (VRef l) s
  = Returns (BatchSampler bs (seq 0 (length samples)))
            (set_gen (next_seed (gen s)).2 s).
Proof.
  intros Hl Hd. unfold batch_indices, deref, mbind, Py_bind, bind, random_int64.
  rewrite Hl. destruct (next_seed (gen s)) as [seed g].
  unfold set_gen. cbn [heap]. rewrite Hd. reflexivity.
Qed.

(** [batch_indices] on a loader that shuffles. *)
Lemma batch_indices_shuffled (s : state A) l d bs root train t samples :
  heap s !! l = Some (ODataLoader d bs true) →
  heap s !! d = Some (OMNIST root train t samples) →
  batch_indices (VRef l) s
  = Returns (BatchSampler bs (randperm (sampler_seed (gen s)) (length samples)))
            (set_gen (next_seed (next_seed (gen s)).2).2 s).
Proof.
  intros Hl Hd.
  unfold batch_indices, deref, mbind, Py_bind, bind, random_int64, sampler_seed.
  rewrite Hl. destruct (next_seed (gen s)) as [seed g].
  unfold set_gen. cbn [heap]. rewrite Hd. cbn [dataset_len ret sampler].
  unfold mbind, Py_bind, bind, random_int64. cbn [gen snd].
  destruct (next_seed g) as [seed' g']. reflexivity.
Qed.

Lemma iterate_sequential (s : state A) l d bs root train t samples :
  heap s !! l = Some (ODataLoader d bs false) →
  heap s !! d = Some (OMNIST root train t samples) →
  iterate (VRef l) s
  = mapM (fetch (OMNIST root train t samples))
         (BatchSampler bs (seq 0 (length samples)))
         (set_gen (next_seed (gen s)).2 s).
Proof.
  intros Hl Hd. unfold iterate.
  unfold mbind at 1. unfold Py_bind, bind.
  rewrite (batch_indices_sequential s l d bs root train t samples Hl Hd).
  unfold deref, mbind, Py_bind, bind, set_gen. cbn [heap]. rewrite Hl.
  cbv beta iota. cbn [heap]. rewrite Hd. reflexivity.
Qed.

Lemma iterate_shuffled (s : state A) l d bs root train t samples :
  heap s !! l = Some (ODataLoader d bs true) →
  heap s !! d = Some (OMNIST root train t samples) →
  iterate (VRef l) s
  = mapM (fetch (OMNIST root train t samples))
         (BatchSampler bs (randperm (sampler_seed (gen s)) (length samples)))
         (set_gen (next_seed (next_seed (gen s)).2).2 s).
Proof.
  intros Hl Hd. unfold iterate.
  unfold mbind at 1. unfold Py_bind, bind.
  rewrite (batch_indices_shuffled s l d bs root train t samples Hl Hd).
  unfold deref, mbind, Py_bind, bind, set_gen. cbn [heap]. rewrite Hl.
  cbv beta iota. cbn [heap]. rewrite Hd. reflexivity.
Qed.

(** An iteration of a loader that does not shuffle is determined by the
    heap. *)
Lemma heap_determined_iterate (s : state A) l d bs root train t samples :
  heap s !! l = Some (ODataLoader d bs false) →
  heap s !! d = Some (OMNIST root train t samples) →
  heap_determined (heap s) (iterate (VRef l)).
Proof.
  intros Hl Hd.
  destruct (heap_determined_mapM (heap s) (fetch (OMNIST root train t samples))
              (BatchSampler bs (seq 0 (length samples)))
              (heap_determined_fetch (heap s) _)) as [r Hr].
  exists r. intros s' Hs'. rewrite <- Hs' in Hl, Hd.
  rewrite (iterate_sequential s' l d bs root train t samples Hl Hd).
  apply Hr. exact Hs'.
Qed.

(** 150 indices in batches of 64: two full batches and one of 22. *)
Example BatchSampler_150 :
  BatchSampler 64 (seq 0 150) = [seq 0 64; seq 64 64; seq 128 22].
Proof.
  change (seq 0 150) with (seq 0 64 ++ seq 64 64 ++ seq 128 22).
  rewrite !BatchSampler_full by (rewrite ?length_seq; lia).
  by rewrite BatchSampler_short by (rewrite length_seq; lia).
Qed.

(** *** Running the dataset cell *)

Lemma alloc_fresh (o : obj A) (s : state A) :
  alloc o s = Returns (VRef (fresh (dom (heap s))))
                      (set_heap (<[fresh (dom (heap s)) := o]> (heap s)) s).
Proof. reflexivity. Qed.

Lemma datasets_MNIST_run (f : gmap string (value A)) s root train tv files :
  f !! "transform" = Some tv →
  disk s !! root = Some files ∨ (disk s !! root = None ∧ mirror s = Some files) →
  datasets_MNIST root train true (var "transform") f s
  = Returns (VRef (fresh (dom (heap s))))
      {| heap := <[fresh (dom (heap s)) :=
                     OMNIST root train tv
                       (if train then train_split files else test_split files)]> (heap s);
         gen := gen s;
         disk := <[root := files]> (disk s);
         mirror := mirror s |}.
Proof.
  intros Hf Hfiles. unfold datasets_MNIST, var, mbind, Py_bind, bind.
  rewrite Hf. cbn [ret]. unfold MNIST_download, MNIST_load.
  destruct Hfiles as [Hdisk|[Hdisk Hmirror]].
  - rewrite Hdisk. rewrite Hdisk. rewrite alloc_fresh. unfold set_heap.
    rewrite (insert_id _ _ _ Hdisk). reflexivity.
  - rewrite Hdisk, Hmirror. cbn [disk set_disk]. rewrite lookup_insert_eq.
    rewrite alloc_fresh. unfold set_heap, set_disk. cbn [heap gen disk mirror].
    rewrite ?Hmirror. reflexivity.
Qed.

Lemma DataLoader_run (f : gmap string (value A)) s name l root train tv samples sh :
  f !! name = Some (VRef l) →
  f !! "batch_size" = Some batch_size →
  heap s !! l = Some (OMNIST root train tv samples) →
  (sh = true → samples ≠ []) →
  DataLoader (var name) (var "batch_size") sh f s
  = Returns (VRef (fresh (dom (heap s))))
            (set_heap (<[fresh (dom (heap s)) := ODataLoader l 64 sh]> (heap s)) s).
Proof.
  intros Hf Hb Hl Hne. unfold DataLoader, var, mbind, Py_bind, bind.
  rewrite Hf, Hb. cbn [ret batch_size]. unfold deref. rewrite Hl.
  destruct sh.
  - unfold RandomSampler_init, mbind, Py_bind, bind. cbn [dataset_len ret].
    rewrite bool_decide_false.
    + apply alloc_fresh.
    + specialize (Hne eq_refl). destruct samples; [done|]. cbn [length]. lia.
  - cbn [ret]. apply alloc_fresh.
Qed.


Lemma assign_run (name : string) (e : expr A) (f : gmap string (value A)) s v s' :
  e f s = Returns v s' → assign name e f s = Returns (Next (<[name := v]> f)) s'.
Proof.
  intros He. unfold assign, mbind, Py_bind, bind. rewrite He. reflexivity.
Qed.

Lemma seq_stmt_run (s1 s2 : stmt A) (f f' : gmap string (value A)) s s' :
  s1 f s = Returns (Next f') s' → (s1 ;;; s2) f s = s2 f' s'.
Proof.
  intros H1. unfold seq_stmt, mbind, Py_bind, bind. rewrite H1. reflexivity.
Qed.

Lemma fresh_insert_ne (h : gmap loc (obj A)) (l : loc) (o : obj A) :
  fresh (dom (<[l := o]> h)) ≠ l.
Proof.
  intros Heq. apply (is_fresh (dom (<[l := o]> h))).
  rewrite Heq. apply elem_of_dom. rewrite lookup_insert_eq. by eexists.
Qed.

Lemma dataset_cell_run (f : gmap string (value A)) (s : state A) files :
  disk s !! "./data" = Some files
  ∨ (disk s !! "./data" = None ∧ mirror s = Some files) →
  train_split files ≠ [] →
  ∃ lt l1 l2 l3 l4 : loc,
    dataset_cell f s
    = Returns
        (Next (<["test_loader" := VRef l4]>
                 (<["train_loader" := VRef l3]>
                    (<["batch_size" := VInt 64]>
                       (<["test_dataset" := VRef l2]>
                          (<["train_dataset" := VRef l1]>
                             (<["transform" := VRef lt]>
                                (<["transforms" := VModule "torchvision.transforms"]>
                                   (<["datasets" := VModule "torchvision.datasets"]>
                                      (<["optim" := VModule "torch.optim"]>
                                         (<["nn" := VModule "torch.nn"]>
                                            (<["torch" := VModule "torch"]> f))))))))))))
        {| heap :=
             <[l4 := ODataLoader l2 64 false]>
               (<[l3 := ODataLoader l1 64 true]>
                  (<[l2 := OMNIST "./data" false (VRef lt) (test_split files)]>
                     (<[l1 := OMNIST "./data" true (VRef lt) (train_split files)]>
                        (<[lt := OTransform transform]> (heap s)))));
           gen := gen s;
           disk := <["./data" := files]> (disk s);
           mirror := mirror s |}
    ∧ NoDup [lt; l1; l2; l3; l4]
    ∧ Forall (λ l, heap s !! l = None) [lt; l1; l2; l3; l4].
Proof.
  intros Hfiles Htrain.
  set (h0 := heap s).
  set (lt := fresh (dom h0)).
  set (h1 := <[lt := OTransform transform]> h0).
  set (l1 := fresh (dom h1)).
  set (h2 := <[l1 := OMNIST "./data" true (VRef lt) (train_split files)]> h1).
  set (l2 := fresh (dom h2)).
  set (h3 := <[l2 := OMNIST "./data" false (VRef lt) (test_split files)]> h2).
  set (l3 := fresh (dom h3)).
  set (h4 := <[l3 := ODataLoader l1 64 true]> h3).
  set (l4 := fresh (dom h4)).
  exists lt, l1, l2, l3, l4.
  split; [|exact (fresh_chain h0 _ _ _ _)].
  unfold dataset_cell.
  (* the imports *)
  do 4 (erewrite seq_stmt_run; [|reflexivity]).
  cbn [foldl].
  (* transform = transforms.Compose([...]) *)
  erewrite seq_stmt_run; cycle 1.
  { apply assign_run. unfold new_transform. apply alloc_fresh. }
  fold h0 lt. unfold set_heap. cbn [gen disk mirror]. fold h1.
  (* train_dataset = datasets.MNIST(...) *)
  erewrite seq_stmt_run; cycle 1.
  { apply assign_run. unfold train_dataset.
    apply (datasets_MNIST_run _ _ "./data" true (VRef lt) files).
    - apply lookup_insert_eq.
    - exact Hfiles. }
  cbn [heap gen disk mirror]. fold l1 h2.
  (* test_dataset = datasets.MNIST(...) *)
  erewrite seq_stmt_run; cycle 1.
  { apply assign_run. unfold test_dataset.
    apply (datasets_MNIST_run _ _ "./data" false (VRef lt) files).
    - rewrite lookup_insert_ne by discriminate. apply lookup_insert_eq.
    - left. cbn [disk]. apply lookup_insert_eq. }
  cbn [heap gen disk mirror]. fold l2 h3. rewrite insert_insert_eq.
  (* batch_size = 64 *)
  erewrite seq_stmt_run; cycle 1.
  { apply assign_run. reflexivity. }
  (* train_loader = DataLoader(...) *)
  erewrite seq_stmt_run; cycle 1.
  { apply assign_run. unfold train_loader.
    apply (DataLoader_run _ _ "train_dataset" l1 "./data" true (VRef lt)
             (train_split files) true).
    - rewrite !lookup_insert_ne by discriminate. apply lookup_insert_eq.
    - apply lookup_insert_eq.
    - cbn [heap]. unfold h3. rewrite lookup_insert_ne by apply fresh_insert_ne.
      apply lookup_insert_eq.
    - intros _. exact Htrain. }
  unfold set_heap. cbn [heap gen disk mirror]. fold l3 h4.
  (* test_loader = DataLoader(...) *)
  erewrite assign_run; cycle 1.
  { unfold test_loader.
    apply (DataLoader_run _ _ "test_dataset" l2 "./data" false (VRef lt)
             (test_split files) false).
    - rewrite !lookup_insert_ne by discriminate. apply lookup_insert_eq.
    - rewrite lookup_insert_ne by discriminate. apply lookup_insert_eq.
    - cbn [heap]. unfold h4. rewrite lookup_insert_ne by apply fresh_insert_ne.
      apply lookup_insert_eq.
    - intros Hsh. discriminate Hsh. }
  reflexivity.
Qed.

End DataFacts.

(** *** What an iteration yields *)

(** The batches are the successive runs of [bs] elements. *)
Lemma BatchSampler_unfold bs (l : list nat) :
  0 < bs → bs ≤ length l →
  BatchSampler bs l = take bs l :: BatchSampler bs (drop bs l).
Proof.
  intros Hbs Hlen. rewrite <- (take_drop bs l) at 1.
  apply BatchSampler_full; [exact Hbs|]. rewrite length_take. lia.
Qed.

Lemma BatchSampler_lookup_length bs (l : list nat) :
  0 < bs →
  length (BatchSampler bs l) = (length l + bs - 1) / bs
  ∧ ∀ k, k * bs < length l →
      BatchSampler bs l !! k = Some (take bs (drop (k * bs) l)).
Proof.
  intros Hbs.
  remember (length l) as n eqn:Hn. revert l Hn.
  induction n as [n IH] using lt_wf_ind. intros l Hn.
  destruct (decide (n = 0)) as [->|Hpos].
  { destruct l; [|discriminate]. split.
    - cbn [BatchSampler BatchSampler_loop length]. rewrite Nat.div_small; [done|lia].
    - intros k Hk. cbn [length] in Hk. lia. }
  destruct (decide (n < bs)) as [Hshort|Hlong].
  { rewrite BatchSampler_short by lia. split.
    - cbn [length]. apply (Nat.div_unique (n + bs - 1) bs 1 (n - 1)); lia.
    - intros [|k] Hk; [|exfalso; revert Hk; cbn [Nat.mul]; lia].
      rewrite Nat.mul_0_l, drop_0, take_ge by lia. reflexivity. }
  rewrite BatchSampler_unfold by lia.
  destruct (IH (n - bs) ltac:(lia) (drop bs l)) as [IHlen IHk].
  { rewrite length_drop. lia. }
  split.
  - cbn [length]. rewrite IHlen.
    replace (n + bs - 1) with ((n - bs + bs - 1) + 1 * bs) by lia.
    rewrite Nat.div_add by lia. lia.
  - intros [|k] Hk; [reflexivity|].
    cbn [lookup list_lookup]. rewrite IHk by nia.
    rewrite drop_drop. reflexivity.
Qed.

Section BatchFacts.
Context {A : Type} `{Scalar A} `{Torch A}.
Hypothesis std_nonzero : seqb (lit_0_5 (A:=A)) zero = false.

Lemma MNIST_getitem_run (s : state A) root train lt samples i img y :
  heap s !! lt = Some (OTransform transform) →
  samples !! i = Some (img, y) →
  MNIST_getitem (OMNIST root train (VRef lt) samples) i s
  = Returns (VTensor {| shape := [1; height img; width img];
                        data := map rescale (pixels img) |}, y) s.
Proof.
  intros Hlt Hi. unfold MNIST_getitem. rewrite Hi.
  unfold mbind, Py_bind, bind. rewrite (deref_run _ _ _ Hlt).
  rewrite (normalize_to_tensor img std_nonzero). reflexivity.
Qed.

Lemma MNIST_getitem_out_of_range (s : state A) root train t samples i :
  length samples ≤ i →
  MNIST_getitem (OMNIST root train t samples) i s
  = Raises (Exn IndexError "index out of range") s.
Proof.
  intros Hi. unfold MNIST_getitem. by rewrite (lookup_ge_None_2 samples i Hi).
Qed.

Lemma mapM_getitem_run (s : state A) root train lt samples indices :
  heap s !! lt = Some (OTransform transform) →
  Forall (λ i, i < length samples) indices →
  mapM (MNIST_getitem (OMNIST root train (VRef lt) samples)) indices s
  = Returns
      (map (λ i, let p := nth i samples (Image 0 0 [], 0%Z) in
                 (VTensor {| shape := [1; height p.1; width p.1];
                             data := map rescale (pixels p.1) |}, p.2))
           indices) s.
Proof.
  intros Hlt Hin. induction Hin as [|i indices Hi _ IH]; [reflexivity|].
  cbn [mapM map]. unfold mbind, Py_bind, bind.
  destruct (lookup_lt_is_Some_2 samples i Hi) as [[img y] Hs].
  rewrite (MNIST_getitem_run s root train lt samples i img y Hlt Hs).
  rewrite IH. unfold mret, Py_ret, ret.
  rewrite (nth_lookup_Some _ _ (Image 0 0 [], 0%Z) _ Hs). reflexivity.
Qed.

Lemma flat_map_map {T U V} (f : U → list V) (g : T → U) (l : list T) :
  flat_map f (map g l) = flat_map (λ x, f (g x)) l.
Proof. induction l as [|x l IH]; [reflexivity|]. cbn [map flat_map]. by rewrite IH. Qed.

Lemma forallb_same_shape (g : nat → tensor A) (lab : nat → Z) (sh : list nat)
    (l : list nat) :
  Forall (λ i, shape (g i) = sh) l →
  forallb (λ p : value A * Z,
             match p.1 with
             | VTensor t => bool_decide (shape t = sh)
             | _ => false
             end) (map (λ i, (VTensor (g i), lab i)) l) = true.
Proof.
  induction 1 as [|i l Hi _ IH]; [reflexivity|].
  cbn [map forallb fst]. rewrite IH, bool_decide_true by exact Hi. reflexivity.
Qed.

(** Collating samples of one shape stacks them along a new first axis. *)
Lemma default_collate_stack (g : nat → tensor A) (lab : nat → Z) (sh : list nat)
    (l : list nat) :
  l ≠ [] →
  Forall (λ i, shape (g i) = sh) l →
  default_collate (map (λ i, (VTensor (g i), lab i)) l)
  = Ok (VTensor {| shape := length l :: sh;
                   data := flat_map (λ i, data (g i)) l |}, map lab l).
Proof.
  intros Hne Hsh. destruct l as [|i0 rest]; [done|].
  pose proof (forallb_same_shape g lab sh (i0 :: rest) Hsh) as Hall.
  inversion_clear Hsh as [|? ? Hi0 Hrest].
  cbn [map] in *. cbn [default_collate fst]. rewrite Hi0, Hall.
  rewrite <- (map_cons (λ i, (VTensor (g i), lab i))).
  rewrite length_map, flat_map_map, map_map. reflexivity.
Qed.

Lemma fetch_run (s : state A) root train lt samples h w indices :
  heap s !! lt = Some (OTransform transform) →
  Forall (λ p : image * Z, height p.1 = h ∧ width p.1 = w) samples →
  indices ≠ [] →
  Forall (λ i, i < length samples) indices →
  fetch (OMNIST root train (VRef lt) samples) indices s
  = Returns (batch_of samples h w indices) s.
Proof.
  intros Hlt Hsize Hne Hin. unfold fetch, mbind, Py_bind, bind.
  rewrite (mapM_getitem_run s root train lt samples indices Hlt Hin).
  cbn zeta.
  rewrite (default_collate_stack
             (λ i, {| shape := [1; height (nth i samples (Image 0 0 [], 0%Z)).1;
                                   width (nth i samples (Image 0 0 [], 0%Z)).1];
                      data := map rescale (pixels (nth i samples (Image 0 0 [], 0%Z)).1) |})
             (λ i, (nth i samples (Image 0 0 [], 0%Z)).2) [1; h; w] indices Hne).
  - reflexivity.
  - eapply Forall_impl; [exact Hin|]. intros i Hi. cbn [shape].
    destruct (lookup_lt_is_Some_2 samples i Hi) as [p Hp].
    rewrite (nth_lookup_Some _ _ _ _ Hp).
    destruct (proj1 (Forall_lookup _ _) Hsize i p Hp) as [-> ->]. reflexivity.
Qed.

Lemma mapM_fetch_run (s : state A) root train lt samples h w batches :
  heap s !! lt = Some (OTransform transform) →
  Forall (λ p : image * Z, height p.1 = h ∧ width p.1 = w) samples →
  Forall (λ b, b ≠ [] ∧ Forall (λ i, i < length samples) b) batches →
  mapM (fetch (OMNIST root train (VRef lt) samples)) batches s
  = Returns (map (batch_of samples h w) batches) s.
Proof.
  intros Hlt Hsize Hb. induction Hb as [|b batches [Hne Hin] _ IH]; [reflexivity|].
  cbn [mapM map]. unfold mbind, Py_bind, bind.
  rewrite (fetch_run s root train lt samples h w b Hlt Hsize Hne Hin), IH.
  reflexivity.
Qed.

(** The index batches a [BatchSampler] cuts from in-range indices are not
    empty and hold in-range indices. *)
Lemma BatchSampler_in_range bs n (l : list nat) :
  0 < bs →
  Forall (λ i, i < n) l →
  Forall (λ b, b ≠ [] ∧ Forall (λ i, i < n) b) (BatchSampler bs l).
Proof.
  intros Hbs Hl.
  pose proof (BatchSampler_lengths bs l Hbs) as Hlen.
  apply Forall_forall. intros b Hb. split.
  - pose proof (proj1 (Forall_forall _ _) Hlen b Hb) as Hb'.
    intros ->. cbn [length] in Hb'. lia.
  - apply Forall_forall. intros i Hi.
    apply (proj1 (Forall_forall _ _) Hl).
    rewrite <- (BatchSampler_concat bs l). apply list_elem_of_In, in_concat.
    exists b. split; by apply list_elem_of_In.
Qed.

End BatchFacts.

Lemma NoDup_5_ne {T} (a b c d e : T) :
  NoDup [a; b; c; d; e] →
  a ≠ b ∧ a ≠ c ∧ a ≠ d ∧ a ≠ e ∧ b ≠ c ∧ b ≠ d ∧ b ≠ e
  ∧ c ≠ d ∧ c ≠ e ∧ d ≠ e.
Proof.
  intros Hn. rewrite NoDup_alt in Hn.
  repeat split; intros ->.
  - discriminate (Hn 0 1 b eq_refl eq_refl).
  - discriminate (Hn 0 2 c eq_refl eq_refl).
  - discriminate (Hn 0 3 d eq_refl eq_refl).
  - discriminate (Hn 0 4 e eq_refl eq_refl).
  - discriminate (Hn 1 2 c eq_refl eq_refl).
  - discriminate (Hn 1 3 d eq_refl eq_refl).
  - discriminate (Hn 1 4 e eq_refl eq_refl).
  - discriminate (Hn 2 3 d eq_refl eq_refl).
  - discriminate (Hn 2 4 e eq_refl eq_refl).
  - discriminate (Hn 3 4 e eq_refl eq_refl).
Qed.

Section DataClaims.
Context {A : Type} `{Scalar A} `{Torch A}.

(** With [download=True], a dataset constructed when nothing is on disk
    fetches the files. *)
Lemma download_fetches (root : string) (train : bool) (f : gmap string (value A))
    (s : state A) tv files :
  f !! "transform" = Some tv →
  disk s !! root = None → mirror s = Some files →
  disk (final_state (datasets_MNIST root train true (var "transform") f s)) !! root
  = Some files.
Proof.
  intros Hf Hdisk Hmirror.
  rewrite (datasets_MNIST_run f s root train tv files Hf) by (right; by split).
  cbn [final_state disk]. apply lookup_insert_eq.
Qed.

(** C9: when the dataset cell has run, [train_dataset] and [test_dataset] are
    two different [MNIST] objects, both rooted at "./data", the first holding
    the train split ([train=True]) and the second the test split
    ([train=False]), and both refer to the one transform object that
    [transform] names; the files are under "./data" afterwards, and each of
    the two constructor calls on its own fetches them when they are missing
    ([download=True]). *)
Theorem datasets_share_root_and_transform (f : gmap string (value A)) (s : state A) files :
  disk s !! "./data" = Some files
  ∨ (disk s !! "./data" = None ∧ mirror s = Some files) →
  train_split files ≠ [] →
  ∃ (lt l1 l2 : loc) (f' : gmap string (value A)) (s' : state A),
    dataset_cell f s = Returns (Next f') s'
    ∧ f' !! "transform" = Some (VRef lt)
    ∧ heap s' !! lt = Some (OTransform transform)
    ∧ f' !! "train_dataset" = Some (VRef l1)
    ∧ heap s' !! l1 = Some (OMNIST "./data" true (VRef lt) (train_split files))
    ∧ f' !! "test_dataset" = Some (VRef l2)
    ∧ heap s' !! l2 = Some (OMNIST "./data" false (VRef lt) (test_split files))
    ∧ l1 ≠ l2
    ∧ disk s' !! "./data" = Some files
    ∧ (∀ (g : gmap string (value A)) (s0 : state A) tv files0,
         g !! "transform" = Some tv →
         disk s0 !! "./data" = None → mirror s0 = Some files0 →
         disk (final_state (train_dataset g s0)) !! "./data" = Some files0
         ∧ disk (final_state (test_dataset g s0)) !! "./data" = Some files0).
Proof.
  intros Hfiles Htrain.
  destruct (dataset_cell_run f s files Hfiles Htrain)
    as (lt & l1 & l2 & l3 & l4 & Hrun & Hnodup & Hnew).
  exists lt, l1, l2. eexists _, _. split; [exact Hrun|].
  destruct (NoDup_5_ne _ _ _ _ _ Hnodup)
    as (? & ? & ? & ? & ? & ? & ? & ? & ? & ?).
  cbn [heap disk].
  repeat split.
  - by simplify_map_eq.
  - by simplify_map_eq.
  - by simplify_map_eq.
  - by simplify_map_eq.
  - by simplify_map_eq.
  - by simplify_map_eq.
  - assumption.
  - apply lookup_insert_eq.
  - by apply (download_fetches "./data" true g s0 tv files0).
  - by apply (download_fetches "./data" false g s0 tv files0).
Qed.


End DataClaims.

Lemma datasets_share_root_and_transform_witness :
  ∃ (lt l1 l2 : loc) (f' : gmap string (value Qc)) (s' : @state Qc Qc_torch),
    dataset_cell ∅ online_state = Returns (Next f') s'
    ∧ heap s' !! l1 = Some (OMNIST "./data" true (VRef lt) (train_split sample_files))
    ∧ heap s' !! l2 = Some (OMNIST "./data" false (VRef lt) (test_split sample_files))
    ∧ l1 ≠ l2.
Proof.
  destruct (datasets_share_root_and_transform (H0 := Qc_torch) ∅ online_state sample_files)
    as (lt & l1 & l2 & f' & s' & Hrun & _ & _ & _ & H1 & _ & H2 & Hne & _).
  - right. split; reflexivity.
  - discriminate.
  - exists lt, l1, l2, f', s'. repeat split; assumption.
Defined.


(** On the small copy of the dataset, with the stand-in generator: two
    iterations of the train loader visit the samples in different orders,
    two iterations of the test loader in the same one. *)
Example sample_loader_orders :
  let s := final_state (dataset_cell ∅ online_state) in
  let train := VRef 4%positive in
  let test := VRef 5%positive in
  to_result (batch_indices train s) = Ok [[1; 2; 0]]
  ∧ to_result (batch_indices train (final_state (batch_indices train s))) = Ok [[0; 1; 2]]
  ∧ to_result (batch_indices test s) = Ok [[0; 1]]
  ∧ to_result (batch_indices test (final_state (batch_indices test s))) = Ok [[0; 1]].
Proof. vm_compute. repeat split. Qed.

(** ** Exceptions *)

Section ErrorClaims.
Context {A : Type} `{Scalar A} `{Torch A}.

Lemma seq_stmt_raises (s1 s2 : stmt A) (f : gmap string (value A)) s e s' :
  s1 f s = Raises e s' → (s1 ;;; s2) f s = Raises e s'.
Proof.
  intros H1. unfold seq_stmt, mbind, Py_bind, bind. rewrite H1. reflexivity.
Qed.

Lemma assign_raises (name : string) (e : expr A) (f : gmap string (value A)) s x s' :
  e f s = Raises x s' → assign name e f s = Raises x s'.
Proof.
  intros He. unfold assign, mbind, Py_bind, bind. rewrite He. reflexivity.
Qed.

(** With nothing on disk and the mirrors out of reach, the dataset cell stops
    at the first [datasets.MNIST] call with the exception [download] raises. *)
Lemma dataset_cell_offline (f : gmap string (value A)) (s : state A) :
  disk s !! "./data" = None → mirror s = None →
  ∃ s' : state A,
    s' = set_heap (<[fresh (dom (heap s)) := OTransform transform]> (heap s)) s
    ∧ MNIST_download "./data" s'
      = Raises (Exn RuntimeError "Error downloading train-images-idx3-ubyte.gz") s'
    ∧ dataset_cell f s
      = Raises (Exn RuntimeError "Error downloading train-images-idx3-ubyte.gz") s'.
Proof.
  intros Hdisk Hmirror. eexists. split; [reflexivity|].
  assert (Hd : MNIST_download "./data"
                 (set_heap (<[fresh (dom (heap s)) := OTransform transform]> (heap s)) s)
               = Raises (Exn RuntimeError "Error downloading train-images-idx3-ubyte.gz")
                   (set_heap (<[fresh (dom (heap s)) := OTransform transform]> (heap s)) s)).
  { unfold MNIST_download, set_heap. cbn [disk mirror]. by rewrite Hdisk, Hmirror. }
  split; [exact Hd|].
  unfold dataset_cell.
  do 4 (erewrite seq_stmt_run; [|reflexivity]).
  erewrite seq_stmt_run; cycle 1.
  { apply assign_run. unfold new_transform. apply alloc_fresh. }
  apply seq_stmt_raises, assign_raises.
  unfold train_dataset, datasets_MNIST, var, mbind, Py_bind, bind.
  rewrite lookup_insert_eq. cbn [ret]. rewrite Hd. reflexivity.
Qed.

(** C6: nothing in the notebook handles an exception.  An exception raised
    inside a computation is the outcome of every computation built on it;
    whatever exception a layer call raises inside [forward] (a shape
    mismatch when the last dimension is not 784, a dtype mismatch when the
    tensor is not float32, a type mismatch when the input is no tensor) is,
    unchanged, what [forward] raises, and the state,
    the model in it, is as it was before the call; when the files are not on
    disk and cannot be downloaded, the dataset cell raises the very
    exception [download] raises. *)
Theorem errors_propagate_unchanged s l w1 b1 w2 b2 :
  is_linear_model s l w1 b1 w2 b2 →
  (* there is no handler: an exception skips whatever follows it *)
  (∀ (T U : Type) (m : Py A T) (k : T → Py A U) s0 e s1,
     m s0 = Raises e s1 → (m ≫= k) s0 = Raises e s1)
  (* what a layer raises is what forward raises, in the state it was called in *)
  ∧ (∀ (x : value A) e,
       two_layer w1 b1 w2 b2 x = Err e → forward (VRef l) x s = Raises e s)
  ∧ (∀ (x : value A) e s',
       forward (VRef l) x s = Raises e s' →
       s' = s ∧ two_layer w1 b1 w2 b2 x = Err e)
  (* shape mismatch *)
  ∧ (∀ t : tensor A, last (shape t) ≠ Some 784 →
       ∃ e, F_linear (VTensor t) w1 b1 = Err e
            ∧ exn_cls e = RuntimeError
            ∧ forward (VRef l) (VTensor t) s = Raises e s)
  (* dtype mismatch *)
  ∧ (∀ (dt : other_dtype) (sh : list nat),
       ∃ e, F_linear (VTensorOther dt sh) w1 b1 = Err e
            ∧ exn_cls e = RuntimeError
            ∧ forward (VRef l) (VTensorOther dt sh) s = Raises e s)
  (* type mismatch: the input is no tensor, of whatever dtype *)
  ∧ (∀ x : value A, (∀ t, x ≠ VTensor t) → (∀ dt sh, x ≠ VTensorOther dt sh) →
       ∃ e, F_linear x w1 b1 = Err e
            ∧ exn_cls e = TypeError
            ∧ forward (VRef l) x s = Raises e s)
  (* download failure *)
  ∧ (∀ (f : gmap string (value A)) (s0 : state A),
       disk s0 !! "./data" = None → mirror s0 = None →
       ∃ e s1, MNIST_download "./data" s1 = Raises e s1
               ∧ dataset_cell f s0 = Raises e s1).
Proof.
  intros Hm.
  pose proof Hm as (l1 & l2 & _ & _ & _ & _ & _ & _ & Hwf1 & Hwf2).
  assert (Hprop : ∀ (x : value A) e,
            two_layer w1 b1 w2 b2 x = Err e → forward (VRef l) x s = Raises e s).
  { intros x e Htwo. rewrite (forward_run s l w1 b1 w2 b2 x Hm), Htwo. reflexivity. }
  assert (Hfirst : ∀ (x : value A) e,
            F_linear x w1 b1 = Err e → two_layer w1 b1 w2 b2 x = Err e).
  { intros x e Hx. unfold two_layer. rewrite Hx. reflexivity. }
  split; [intros T U m k s0 e s1; apply bind_Raises|].
  split; [exact Hprop|].
  split.
  { intros x e s'. rewrite (forward_run s l w1 b1 w2 b2 x Hm).
    destruct (two_layer w1 b1 w2 b2 x) as [y|e']; intros Hr; [discriminate|].
    injection Hr as -> ->. by split. }
  split.
  { intros t Hlast.
    destruct (F_linear_shape_mismatch w1 b1 784 64 t Hwf1 Hlast) as (e & He & Hcls).
    exists e. repeat split; auto. }
  split.
  { intros dt sh. eexists. split; [apply F_linear_dtype_mismatch|].
    split; [reflexivity|]. apply Hprop, Hfirst, F_linear_dtype_mismatch. }
  split.
  { intros x Hx Hdt. eexists. split; [by apply F_linear_type_mismatch|].
    split; [reflexivity|]. by apply Hprop, Hfirst, F_linear_type_mismatch. }
  intros f s0 Hdisk Hmirror.
  destruct (dataset_cell_offline f s0 Hdisk Hmirror) as (s1 & _ & Hd & Hcell).
  eauto.
Qed.

End ErrorClaims.

Lemma errors_propagate_unchanged_witness :
  ∃ e, F_linear (VTensor sample_tensor) (pattern [64; 784]) (pattern [64]) = Err e
       ∧ exn_cls e = RuntimeError
       ∧ forward (VRef 1%positive) (VTensor sample_tensor) sample_state
         = Raises e sample_state.
Proof.
  destruct (errors_propagate_unchanged sample_state 1%positive _ _ _ _ sample_state_model)
    as (_ & _ & _ & Hshape & _).
  apply (Hshape sample_tensor). discriminate.
Defined.


(** ** Feeding the loaders' batches to the model *)

Section BatchClaims.
Context {A : Type} `{Scalar A} `{Torch A}.

(** X1: [forward] does not flatten its input.  A batch as the loaders yield
    it has shape (B, 1, 28, 28); its last dimension is 28, not 784, so on a
    model as [__init__] builds it [forward] raises the first layer's shape
    mismatch and leaves the state as it was. *)
Theorem forward_rejects_unflattened_batch s l w1 b1 w2 b2 (t : tensor A) (B : nat) :
  is_linear_model s l w1 b1 w2 b2 →
  shape t = [B; 1; 28; 28] →
  forward (VRef l) (VTensor t) s
  = Raises (Exn RuntimeError "mat1 and mat2 shapes cannot be multiplied") s.
Proof.
  intros Hm Hshape. rewrite (forward_run s l w1 b1 w2 b2 _ Hm).
  destruct Hm as (l1 & l2 & _ & _ & _ & _ & _ & _ & (Hw1 & _ & Hb1 & _) & _).
  unfold two_layer, F_linear. rewrite Hw1, Hshape. cbn [last].
  rewrite decide_False by discriminate. reflexivity.
Qed.

End BatchClaims.

Lemma forward_rejects_unflattened_batch_witness :
  forward (VRef 1%positive)
    (VTensor {| shape := [2; 1; 28; 28];
                data := data sample_tensor ++ data sample_tensor |})
    sample_state
  = Raises (Exn RuntimeError "mat1 and mat2 shapes cannot be multiplied") sample_state.
Proof.
  apply (forward_rejects_unflattened_batch sample_state 1%positive _ _ _ _ _ 2
           sample_state_model).
  reflexivity.
Defined.

(** The batch the test loader yields on the small copy of the dataset, fed to
    a freshly constructed model. *)
Example loader_batch_is_rejected :
  let s := final_state (dataset_cell ∅ online_state) in
  to_result
    ((model ← LinearModel;
      batches ← iterate (VRef 5%positive);
      match batches with
      | (x, _) :: _ => forward model x
      | [] => mret VNone
      end) s)
  = Err (Exn RuntimeError "mat1 and mat2 shapes cannot be multiplied").
Proof. vm_compute. reflexivity. Qed.

(** ** Tensor conversions *)

Section ConversionFacts.
Import Interop.

(** A value that fits the target type is not changed by the cast. *)
Lemma cast_in_range (d : dtype) (z : Z) : in_range d z = true → cast d z = z.
Proof.
  unfold in_range, cast. intros Hr.
  apply andb_prop in Hr as [Hlo Hhi].
  apply Z.leb_le in Hlo. apply Z.ltb_lt in Hhi.
  assert (Hpow : (2 ^ bits d = 2 * 2 ^ (bits d - 1))%Z).
  { rewrite <- Z.pow_succ_r by (destruct d; cbn; lia). f_equal. lia. }
  rewrite Hpow, Z.mod_small by lia. lia.
Qed.

Lemma map_cast_in_range (d : dtype) (l : list Z) :
  forallb (in_range d) l = true → map (cast d) l = l.
Proof.
  induction l as [|z l IH]; cbn [forallb map]; [reflexivity|].
  intros Hr. apply andb_prop in Hr as [Hz Hl].
  by rewrite (cast_in_range d z Hz), (IH Hl).
Qed.

(** PyTorch to TensorFlow through [.numpy()]: same elements, same dtype. *)
Lemma torch_to_tf (l : list Z) (d : dtype) :
  forallb (in_range d) l = true →
  ∃ t, torch_tensor_of_list l d = Ok t
       ∧ tf_data (tf_convert_to_tensor (Tensor_numpy t)) = torch_data t
       ∧ tf_dtype (tf_convert_to_tensor (Tensor_numpy t)) = torch_dtype t
       ∧ tf_shape (tf_convert_to_tensor (Tensor_numpy t)) = torch_shape t
       ∧ torch_data t = l ∧ torch_dtype t = d.
Proof.
  intros Hr. unfold torch_tensor_of_list. rewrite Hr.
  eexists. split; [reflexivity|]. repeat split.
Qed.

(** TensorFlow to NumPy and back to PyTorch: same elements, same dtype. *)
Lemma tf_to_torch (l : list Z) (d : dtype) :
  forallb (in_range d) l = true →
  ∃ t, tf_constant l d = Ok t
       ∧ torch_data (torch_tensor_of_ndarray (EagerTensor_numpy t) d) = tf_data t
       ∧ torch_dtype (torch_tensor_of_ndarray (EagerTensor_numpy t) d) = tf_dtype t
       ∧ torch_shape (torch_tensor_of_ndarray (EagerTensor_numpy t) d) = tf_shape t
       ∧ tf_data t = l ∧ tf_dtype t = d.
Proof.
  intros Hr. unfold tf_constant. rewrite Hr.
  eexists. split; [reflexivity|].
  cbn [torch_tensor_of_ndarray EagerTensor_numpy torch_data torch_dtype torch_shape
       np_data np_dtype np_shape tf_data tf_dtype tf_shape].
  rewrite (map_cast_in_range d l Hr). repeat split.
Qed.

(** C7: in the conversion cell, the PyTorch int32 tensor [1, 2, 3] taken to
    TensorFlow through [.numpy()], and the TensorFlow int32 tensor [1, 2, 3]
    taken to NumPy and back to PyTorch, each arrive with the elements and
    the int32 dtype they started with; the cell prints the four dtype lines
    the notebook records. *)
Theorem conversions_preserve_content :
  ∃ env,
    conversion_cell = Ok env
    (* PyTorch -> NumPy -> TensorFlow *)
    ∧ torch_data (first_pytorch_tensor env) = [1; 2; 3]%Z
    ∧ torch_dtype (first_pytorch_tensor env) = int32
    ∧ tf_data (first_tf_tensor env) = torch_data (first_pytorch_tensor env)
    ∧ tf_dtype (first_tf_tensor env) = torch_dtype (first_pytorch_tensor env)
    (* TensorFlow -> NumPy -> PyTorch *)
    ∧ tf_data (tf_tensor env) = [1; 2; 3]%Z
    ∧ tf_dtype (tf_tensor env) = int32
    ∧ np_data (numpy_array env) = tf_data (tf_tensor env)
    ∧ np_dtype (numpy_array env) = tf_dtype (tf_tensor env)
    ∧ torch_data (pytorch_tensor env) = tf_data (tf_tensor env)
    ∧ torch_dtype (pytorch_tensor env) = tf_dtype (tf_tensor env)
    (* what the cell printed *)
    ∧ stdout env = ["torch.int32"; "<dtype: 'int32'>";
                    "TensorFlow Tensor: <dtype: 'int32'>";
                    "PyTorch Tensor: torch.int32"].
Proof.
  assert (Hr : forallb (in_range int32) [1; 2; 3]%Z = true) by reflexivity.
  destruct (torch_to_tf [1; 2; 3]%Z int32 Hr) as (t1 & Ht1 & Hd1 & Hty1 & _ & Hl1 & Hdt1).
  destruct (tf_to_torch [1; 2; 3]%Z int32 Hr) as (t2 & Ht2 & Hd2 & Hty2 & _ & Hl2 & Hdt2).
  unfold conversion_cell. rewrite Ht1, Ht2. cbn [rbind].
  eexists. split; [reflexivity|].
  cbn [first_pytorch_tensor first_tf_tensor tf_tensor numpy_array pytorch_tensor stdout].
  rewrite Hd1, Hty1, Hd2, Hty2, Hl1, Hl2, Hdt1, Hdt2.
  repeat split; assumption.
Qed.

End ConversionFacts.

(** * Further properties *)

(** ** Batches of a loader *)



Section CellFacts.
Context {A : Type} `{Scalar A} `{Torch A}.

(** What the dataset cell leaves behind, object by object. *)
Lemma dataset_cell_objects (f : gmap string (value A)) (s : state A) files :
  disk s !! "./data" = Some files
  ∨ (disk s !! "./data" = None ∧ mirror s = Some files) →
  train_split files ≠ [] →
  ∃ (lt l1 l2 l3 l4 : loc) (f' : gmap string (value A)) (s' : state A),
    dataset_cell f s = Returns (Next f') s'
    ∧ (f' !! "transform" = Some (VRef lt)
       ∧ f' !! "train_dataset" = Some (VRef l1)
       ∧ f' !! "test_dataset" = Some (VRef l2)
       ∧ f' !! "batch_size" = Some (VInt 64)
       ∧ f' !! "train_loader" = Some (VRef l3)
       ∧ f' !! "test_loader" = Some (VRef l4))
    ∧ (heap s' !! lt = Some (OTransform transform)
       ∧ heap s' !! l1 = Some (OMNIST "./data" true (VRef lt) (train_split files))
       ∧ heap s' !! l2 = Some (OMNIST "./data" false (VRef lt) (test_split files))
       ∧ heap s' !! l3 = Some (ODataLoader l1 64 true)
       ∧ heap s' !! l4 = Some (ODataLoader l2 64 false))
    ∧ (∀ l o, heap s !! l = Some o → heap s' !! l = Some o)
    ∧ (f' !! "torch" = Some (VModule "torch")
       ∧ f' !! "nn" = Some (VModule "torch.nn")
       ∧ f' !! "optim" = Some (VModule "torch.optim")
       ∧ f' !! "datasets" = Some (VModule "torchvision.datasets")
       ∧ f' !! "transforms" = Some (VModule "torchvision.transforms"))
    ∧ (∀ k, k ∉ ["torch"; "nn"; "optim"; "datasets"; "transforms";
                 "transform"; "train_dataset"; "test_dataset"; "batch_size";
                 "train_loader"; "test_loader"] → f' !! k = f !! k)
    ∧ gen s' = gen s
    ∧ disk s' = <["./data" := files]> (disk s)
    ∧ mirror s' = mirror s.
Proof.
  intros Hfiles Htrain.
  destruct (dataset_cell_run f s files Hfiles Htrain)
    as (lt & l1 & l2 & l3 & l4 & Hrun & Hnodup & Hnew).
  exists lt, l1, l2, l3, l4. eexists _, _. split; [exact Hrun|].
  destruct (NoDup_5_ne _ _ _ _ _ Hnodup)
    as (? & ? & ? & ? & ? & ? & ? & ? & ? & ?).
  cbn [heap gen disk mirror].
  split; [repeat split; by simplify_map_eq|].
  split; [repeat split; by simplify_map_eq|].
  split.
  { intros l o Hl.
    assert (Hne : ∀ l', heap s !! l' = None → l' ≠ l) by (intros l' Hn ->; congruence).
    rewrite !Forall_cons in Hnew. destruct Hnew as (Ht & H1' & H2' & H3' & H4' & _).
    rewrite !lookup_insert_ne by (apply Hne; assumption). exact Hl. }
  split; [repeat split; by simplify_map_eq|].
  split; [|done].
  intros k Hk. rewrite !not_elem_of_cons in Hk.
  destruct Hk as (? & ? & ? & ? & ? & ? & ? & ? & ? & ? & ? & _).
  by rewrite !lookup_insert_ne by done.
Qed.

End CellFacts.

Section DataExtras.
Context {A : Type} `{Scalar A} `{Torch A}.

(** X2: an iteration of [test_loader] over n test samples cuts the indices
    0 .. n-1 into ceil(n / 64) batches; batch k holds the indices from 64 k
    up to, but not including, min (64 k + 64, n).  So every batch but the
    last holds 64 indices, the last one what is left ([drop_last] is off), and
    with no sample there is no batch. *)
Theorem test_loader_index_batches (f : gmap string (value A)) (s : state A) files :
  disk s !! "./data" = Some files
  ∨ (disk s !! "./data" = None ∧ mirror s = Some files) →
  train_split files ≠ [] →
  ∃ (l4 : loc) (f' : gmap string (value A)) (s' : state A),
    dataset_cell f s = Returns (Next f') s'
    ∧ f' !! "test_loader" = Some (VRef l4)
    ∧ ∀ s1, heap s1 = heap s' →
        ∃ batches : list (list nat),
          to_result (batch_indices (VRef l4) s1) = Ok batches
          ∧ length batches = (length (test_split files) + 63) / 64
          ∧ ∀ k, k * 64 < length (test_split files) →
              batches !! k
              = Some (seq (k * 64) (min 64 (length (test_split files) - k * 64))).
Proof.
  intros Hfiles Htrain.
  destruct (dataset_cell_objects f s files Hfiles Htrain)
    as (lt & l1 & l2 & l3 & l4 & f' & s' & Hrun
        & (_ & _ & _ & _ & _ & Hf4) & (_ & _ & Hd2 & _ & Hld4) & _).
  exists l4, f', s'. split; [exact Hrun|]. split; [exact Hf4|].
  intros s1 Hs1. rewrite <- Hs1 in Hd2, Hld4.
  rewrite (batch_indices_sequential s1 l4 l2 64 _ _ _ _ Hld4 Hd2).
  eexists. split; [reflexivity|].
  destruct (BatchSampler_lookup_length 64 (seq 0 (length (test_split files))))
    as [Hlen Hk]; [lia|].
  rewrite length_seq in Hlen, Hk. split; [rewrite Hlen; f_equal; lia|].
  intros k Hlt. rewrite (Hk k Hlt), drop_seq, take_seq. reflexivity.
Qed.

(** X3: an iteration of [train_loader] visits every training sample exactly
    once, provided [randperm] delivers a permutation of 0 .. n-1: the batches
    of indices, put end to end, are a permutation of 0 .. n-1, there are
    ceil(n / 64) of them, and the batch the loader yields for each holds the
    transformed images at those indices, stacked, with their labels. *)
Theorem train_loader_epoch (f : gmap string (value A)) (s : state A) files (h w : nat) :
  disk s !! "./data" = Some files
  ∨ (disk s !! "./data" = None ∧ mirror s = Some files) →
  train_split files ≠ [] →
  seqb (lit_0_5 (A:=A)) zero = false →
  Forall (λ p : image * Z, height p.1 = h ∧ width p.1 = w) (train_split files) →
  ∃ (l3 : loc) (f' : gmap string (value A)) (s' : state A),
    dataset_cell f s = Returns (Next f') s'
    ∧ f' !! "train_loader" = Some (VRef l3)
    ∧ gen s' = gen s
    ∧ ∀ s1, heap s1 = heap s' →
        randperm (sampler_seed (gen s1)) (length (train_split files))
          ≡ₚ seq 0 (length (train_split files)) →
        ∃ batches : list (list nat),
          to_result (batch_indices (VRef l3) s1) = Ok batches
          ∧ concat batches ≡ₚ seq 0 (length (train_split files))
          ∧ length batches = (length (train_split files) + 63) / 64
          ∧ to_result (iterate (VRef l3) s1)
            = Ok (map (batch_of (train_split files) h w) batches).
Proof.
  intros Hfiles Htrain Hstd Hsize.
  destruct (dataset_cell_objects f s files Hfiles Htrain)
    as (lt & l1 & l2 & l3 & l4 & f' & s' & Hrun
        & (_ & _ & _ & _ & Hf3 & _) & (Hlt & Hd1 & _ & Hld3 & _) & _ & _ & _ & Hgen & _).
  exists l3, f', s'. split; [exact Hrun|]. split; [exact Hf3|]. split; [exact Hgen|].
  intros s1 Hs1 Hperm. rewrite <- Hs1 in Hlt, Hd1, Hld3.
  set (n := length (train_split files)) in *.
  set (perm := randperm (sampler_seed (gen s1)) n) in *.
  exists (BatchSampler 64 perm).
  split; [by rewrite (batch_indices_shuffled s1 l3 l1 64 _ _ _ _ Hld3 Hd1)|].
  split; [by rewrite BatchSampler_concat|].
  split.
  { rewrite (proj1 (BatchSampler_lookup_length 64 perm ltac:(lia))).
    rewrite (Permutation_length Hperm), length_seq. f_equal. lia. }
  rewrite (iterate_shuffled s1 l3 l1 64 _ _ _ _ Hld3 Hd1). fold n perm.
  rewrite (mapM_fetch_run Hstd _ "./data" true lt (train_split files) h w).
  - reflexivity.
  - exact Hlt.
  - exact Hsize.
  - apply BatchSampler_in_range; [lia|].
    apply Forall_forall. intros i Hi. rewrite Hperm in Hi.
    apply elem_of_seq in Hi. fold n. lia.
Qed.

(** X4: an iteration of [test_loader] yields, for each batch of indices
    [64 k, 64 k + 1, ...], one tensor of shape (B, 1, H, W) holding the
    transformed images at those indices in that order, and the list of their
    B labels, unchanged; it leaves the heap as it was. *)
Theorem test_loader_epoch (f : gmap string (value A)) (s : state A) files (h w : nat) :
  disk s !! "./data" = Some files
  ∨ (disk s !! "./data" = None ∧ mirror s = Some files) →
  train_split files ≠ [] →
  seqb (lit_0_5 (A:=A)) zero = false →
  Forall (λ p : image * Z, height p.1 = h ∧ width p.1 = w) (test_split files) →
  ∃ (l4 : loc) (f' : gmap string (value A)) (s' : state A),
    dataset_cell f s = Returns (Next f') s'
    ∧ f' !! "test_loader" = Some (VRef l4)
    ∧ ∀ s1, heap s1 = heap s' →
        to_result (iterate (VRef l4) s1)
        = Ok (map (batch_of (test_split files) h w)
                  (BatchSampler 64 (seq 0 (length (test_split files)))))
        ∧ heap (final_state (iterate (VRef l4) s1)) = heap s1.
Proof.
  intros Hfiles Htrain Hstd Hsize.
  destruct (dataset_cell_objects f s files Hfiles Htrain)
    as (lt & l1 & l2 & l3 & l4 & f' & s' & Hrun
        & (_ & _ & _ & _ & _ & Hf4) & (Hlt & _ & Hd2 & _ & Hld4) & _).
  exists l4, f', s'. split; [exact Hrun|]. split; [exact Hf4|].
  intros s1 Hs1. rewrite <- Hs1 in Hlt, Hd2, Hld4.
  rewrite (iterate_sequential s1 l4 l2 64 _ _ _ _ Hld4 Hd2).
  rewrite (mapM_fetch_run Hstd _ "./data" false lt (test_split files) h w).
  - split; reflexivity.
  - exact Hlt.
  - exact Hsize.
  - apply BatchSampler_in_range; [lia|].
    apply Forall_forall. intros i Hi. apply elem_of_seq in Hi. lia.
Qed.

(** X5: indexing a dataset the cell built gives the transformed image and the
    label stored at that index, and changes nothing; an index at or beyond the
    number of samples raises [IndexError]. *)
Theorem dataset_getitem (f : gmap string (value A)) (s : state A) files :
  disk s !! "./data" = Some files
  ∨ (disk s !! "./data" = None ∧ mirror s = Some files) →
  train_split files ≠ [] →
  seqb (lit_0_5 (A:=A)) zero = false →
  ∃ (l1 l2 : loc) (ds1 ds2 : obj A) (f' : gmap string (value A)) (s' : state A),
    dataset_cell f s = Returns (Next f') s'
    ∧ f' !! "train_dataset" = Some (VRef l1) ∧ heap s' !! l1 = Some ds1
    ∧ f' !! "test_dataset" = Some (VRef l2) ∧ heap s' !! l2 = Some ds2
    ∧ ∀ s1, heap s1 = heap s' →
        (∀ i img y, train_split files !! i = Some (img, y) →
           MNIST_getitem ds1 i s1
           = Returns (VTensor {| shape := [1; height img; width img];
                                 data := map rescale (pixels img) |}, y) s1)
        ∧ (∀ i img y, test_split files !! i = Some (img, y) →
             MNIST_getitem ds2 i s1
             = Returns (VTensor {| shape := [1; height img; width img];
                                   data := map rescale (pixels img) |}, y) s1)
        ∧ (∀ i, length (train_split files) ≤ i →
             MNIST_getitem ds1 i s1 = Raises (Exn IndexError "index out of range") s1)
        ∧ (∀ i, length (test_split files) ≤ i →
             MNIST_getitem ds2 i s1 = Raises (Exn IndexError "index out of range") s1).
Proof.
  intros Hfiles Htrain Hstd.
  destruct (dataset_cell_objects f s files Hfiles Htrain)
    as (lt & l1 & l2 & l3 & l4 & f' & s' & Hrun
        & (_ & Hf1 & Hf2 & _) & (Hlt & Hd1 & Hd2 & _) & _).
  exists l1, l2. eexists _, _. exists f', s'.
  split; [exact Hrun|].
  split; [exact Hf1|]. split; [exact Hd1|].
  split; [exact Hf2|]. split; [exact Hd2|].
  intros s1 Hs1. rewrite <- Hs1 in Hlt.
  split; [intros i img y Hi; by apply MNIST_getitem_run|].
  split; [intros i img y Hi; by apply MNIST_getitem_run|].
  split; intros i Hi; by apply MNIST_getitem_out_of_range.
Qed.

(** X6: [download=True] fetches the files once.  When the cell has run, the
    files are under "./data"; from any state that has them there the cell
    runs again with the mirrors out of reach or serving other files, builds
    its datasets from the copy on disk, and leaves the disk as it is. *)
Theorem dataset_cell_uses_cached_files (f : gmap string (value A)) (s : state A) files :
  disk s !! "./data" = Some files
  ∨ (disk s !! "./data" = None ∧ mirror s = Some files) →
  train_split files ≠ [] →
  ∃ (f' : gmap string (value A)) (s' : state A),
    dataset_cell f s = Returns (Next f') s'
    ∧ disk s' !! "./data" = Some files
    ∧ ∀ (g : gmap string (value A)) (s2 : state A),
        disk s2 = disk s' →
        ∃ (l1 l2 lt : loc) (g' : gmap string (value A)) (s2' : state A),
          dataset_cell g s2 = Returns (Next g') s2'
          ∧ disk s2' = disk s2
          ∧ g' !! "train_dataset" = Some (VRef l1)
          ∧ heap s2' !! l1 = Some (OMNIST "./data" true (VRef lt) (train_split files))
          ∧ g' !! "test_dataset" = Some (VRef l2)
          ∧ heap s2' !! l2 = Some (OMNIST "./data" false (VRef lt) (test_split files)).
Proof.
  intros Hfiles Htrain.
  destruct (dataset_cell_objects f s files Hfiles Htrain)
    as (lt & l1 & l2 & l3 & l4 & f' & s' & Hrun & _ & _ & _ & _ & _ & _ & Hdisk & _).
  exists f', s'. split; [exact Hrun|].
  assert (Hhave : disk s' !! "./data" = Some files)
    by (rewrite Hdisk; apply lookup_insert_eq).
  split; [exact Hhave|].
  intros g s2 Hs2.
  assert (Hhave2 : disk s2 !! "./data" = Some files) by (by rewrite Hs2).
  destruct (dataset_cell_objects g s2 files (or_introl Hhave2) Htrain)
    as (lt' & l1' & l2' & l3' & l4' & g' & s2' & Hrun2
        & (_ & Hg1 & Hg2 & _) & (_ & Hd1 & Hd2 & _) & _ & _ & _ & _ & Hdisk2 & _).
  exists l1', l2', lt', g', s2'. split; [exact Hrun2|].
  split; [rewrite Hdisk2; by apply insert_id|].
  repeat split; assumption.
Qed.

(** X7: the dataset cell draws nothing from the random generator, does not
    touch any object that was there before, and writes nowhere on disk but
    under "./data".  It binds eleven names and no other: the five its imports
    bind to modules ([torch], [nn], [optim], [datasets], [transforms]) and
    the six it assigns.  A model constructed before the cell ran is the same
    model afterwards. *)
Theorem dataset_cell_frame (f : gmap string (value A)) (s : state A) files :
  disk s !! "./data" = Some files
  ∨ (disk s !! "./data" = None ∧ mirror s = Some files) →
  train_split files ≠ [] →
  ∃ (lt l1 l2 l3 l4 : loc) (f' : gmap string (value A)) (s' : state A),
    dataset_cell f s = Returns (Next f') s'
    ∧ gen s' = gen s
    ∧ mirror s' = mirror s
    ∧ (∀ l o, heap s !! l = Some o → heap s' !! l = Some o)
    ∧ f' !! "torch" = Some (VModule "torch")
    ∧ f' !! "nn" = Some (VModule "torch.nn")
    ∧ f' !! "optim" = Some (VModule "torch.optim")
    ∧ f' !! "datasets" = Some (VModule "torchvision.datasets")
    ∧ f' !! "transforms" = Some (VModule "torchvision.transforms")
    ∧ f' !! "transform" = Some (VRef lt)
    ∧ f' !! "train_dataset" = Some (VRef l1)
    ∧ f' !! "test_dataset" = Some (VRef l2)
    ∧ f' !! "batch_size" = Some (VInt 64)
    ∧ f' !! "train_loader" = Some (VRef l3)
    ∧ f' !! "test_loader" = Some (VRef l4)
    ∧ (∀ k, k ∉ ["torch"; "nn"; "optim"; "datasets"; "transforms";
                 "transform"; "train_dataset"; "test_dataset"; "batch_size";
                 "train_loader"; "test_loader"] → f' !! k = f !! k)
    ∧ (∀ root, root ≠ "./data" → disk s' !! root = disk s !! root)
    ∧ (∀ l w1 b1 w2 b2,
         is_linear_model s l w1 b1 w2 b2 → is_linear_model s' l w1 b1 w2 b2).
Proof.
  intros Hfiles Htrain.
  destruct (dataset_cell_objects f s files Hfiles Htrain)
    as (lt & l1 & l2 & l3 & l4 & f' & s' & Hrun
        & (Hft & Hf1 & Hf2 & Hfb & Hf3 & Hf4) & _ & Hkeep
        & (Htorch & Hnn & Hoptim & Hdatasets & Htransforms) & Hnames
        & Hgen & Hdisk & Hmirror).
  exists lt, l1, l2, l3, l4, f', s'. split; [exact Hrun|].
  split; [exact Hgen|]. split; [exact Hmirror|]. split; [exact Hkeep|].
  split; [exact Htorch|]. split; [exact Hnn|]. split; [exact Hoptim|].
  split; [exact Hdatasets|]. split; [exact Htransforms|].
  split; [exact Hft|]. split; [exact Hf1|]. split; [exact Hf2|].
  split; [exact Hfb|]. split; [exact Hf3|]. split; [exact Hf4|].
  split; [exact Hnames|].
  split.
  { intros root Hroot. rewrite Hdisk. by apply lookup_insert_ne. }
  intros l w1 b1 w2 b2 (k1 & k2 & Hl & Hne & Hne1 & Hne2 & Hk1 & Hk2 & Hwf1 & Hwf2).
  exists k1, k2.
  exact (conj (Hkeep _ _ Hl) (conj Hne (conj Hne1 (conj Hne2
           (conj (Hkeep _ _ Hk1) (conj (Hkeep _ _ Hk2) (conj Hwf1 Hwf2))))))).
Qed.

End DataExtras.

Lemma test_loader_index_batches_witness :
  ∃ (l4 : loc) (f' : gmap string (value Qc)) (s' : @state Qc Qc_torch),
    dataset_cell ∅ online_state = Returns (Next f') s'
    ∧ f' !! "test_loader" = Some (VRef l4)
    ∧ ∀ s1 : @state Qc Qc_torch, heap s1 = heap s' →
        ∃ batches : list (list nat),
          to_result (batch_indices (VRef l4) s1) = Ok batches
          ∧ length batches = (length (test_split sample_files) + 63) / 64
          ∧ ∀ k, k * 64 < length (test_split sample_files) →
              batches !! k
              = Some (seq (k * 64) (min 64 (length (test_split sample_files) - k * 64))).
Proof.
  apply (test_loader_index_batches (H0 := Qc_torch) ∅ online_state sample_files).
  - right. split; reflexivity.
  - discriminate.
Defined.

Lemma train_loader_epoch_witness :
  ∃ (l3 : loc) (f' : gmap string (value Qc)) (s' : @state Qc Qc_torch)
    (batches : list (list nat)),
    dataset_cell ∅ online_state = Returns (Next f') s'
    ∧ f' !! "train_loader" = Some (VRef l3)
    ∧ to_result (batch_indices (VRef l3) s') = Ok batches
    ∧ concat batches ≡ₚ seq 0 3
    ∧ length batches = 1
    ∧ to_result (iterate (VRef l3) s')
      = Ok (map (batch_of (train_split sample_files) 28 28) batches).
Proof.
  destruct (train_loader_epoch (H0 := Qc_torch) ∅ online_state sample_files 28 28)
    as (l3 & f' & s' & Hrun & Hf3 & Hgen & Hepoch).
  - right. split; reflexivity.
  - discriminate.
  - reflexivity.
  - repeat constructor.
  - destruct (Hepoch s' eq_refl) as (batches & Hb & Hperm & Hlen & Hit).
    + rewrite Hgen. change ([1; 2; 0] ≡ₚ [0; 1; 2]).
      symmetry. apply (Permutation_cons_app [1; 2] [] 0). reflexivity.
    + exists l3, f', s', batches. repeat split; assumption.
Defined.

Lemma test_loader_epoch_witness :
  ∃ (l4 : loc) (f' : gmap string (value Qc)) (s' : @state Qc Qc_torch),
    dataset_cell ∅ online_state = Returns (Next f') s'
    ∧ f' !! "test_loader" = Some (VRef l4)
    ∧ ∀ s1 : @state Qc Qc_torch, heap s1 = heap s' →
        to_result (iterate (VRef l4) s1)
        = Ok (map (batch_of (test_split sample_files) 28 28)
                  (BatchSampler 64 (seq 0 (length (test_split sample_files)))))
        ∧ heap (final_state (iterate (VRef l4) s1)) = heap s1.
Proof.
  apply (test_loader_epoch (H0 := Qc_torch) ∅ online_state sample_files 28 28).
  - right. split; reflexivity.
  - discriminate.
  - reflexivity.
  - repeat constructor.
Defined.

Lemma dataset_getitem_witness :
  ∃ (l1 l2 : loc) (ds1 ds2 : obj Qc) (f' : gmap string (value Qc))
    (s' : @state Qc Qc_torch),
    dataset_cell ∅ online_state = Returns (Next f') s'
    ∧ f' !! "train_dataset" = Some (VRef l1) ∧ heap s' !! l1 = Some ds1
    ∧ f' !! "test_dataset" = Some (VRef l2) ∧ heap s' !! l2 = Some ds2
    ∧ MNIST_getitem ds1 2 s'
      = Returns (VTensor {| shape := [1; 28; 28];
                            data := map rescale (pixels sample_image) |}, 4%Z) s'
    ∧ MNIST_getitem ds2 2 s' = Raises (Exn IndexError "index out of range") s'.
Proof.
  destruct (dataset_getitem (H0 := Qc_torch) ∅ online_state sample_files)
    as (l1 & l2 & ds1 & ds2 & f' & s' & Hrun & Hf1 & Hd1 & Hf2 & Hd2 & Hget).
  - right. split; reflexivity.
  - discriminate.
  - reflexivity.
  - destruct (Hget s' eq_refl) as (Htrain & _ & _ & Htest).
    exists l1, l2, ds1, ds2, f', s'.
    repeat (split; [assumption|]). split.
    + exact (Htrain 2 sample_image 4%Z eq_refl).
    + apply Htest. cbn [sample_files test_split length]. lia.
Defined.

Lemma dataset_cell_uses_cached_files_witness :
  ∃ (f' : gmap string (value Qc)) (s' : @state Qc Qc_torch),
    dataset_cell ∅ online_state = Returns (Next f') s'
    ∧ disk s' !! "./data" = Some sample_files
    ∧ ∀ (g : gmap string (value Qc)) (s2 : @state Qc Qc_torch),
        disk s2 = disk s' →
        ∃ (l1 l2 lt : loc) (g' : gmap string (value Qc)) (s2' : @state Qc Qc_torch),
          dataset_cell g s2 = Returns (Next g') s2'
          ∧ disk s2' = disk s2
          ∧ g' !! "train_dataset" = Some (VRef l1)
          ∧ heap s2' !! l1
            = Some (OMNIST "./data" true (VRef lt) (train_split sample_files))
          ∧ g' !! "test_dataset" = Some (VRef l2)
          ∧ heap s2' !! l2
            = Some (OMNIST "./data" false (VRef lt) (test_split sample_files)).
Proof.
  apply (dataset_cell_uses_cached_files (H0 := Qc_torch) ∅ online_state sample_files).
  - right. split; reflexivity.
  - discriminate.
Defined.

Lemma dataset_cell_frame_witness :
  ∃ (f' : gmap string (value Qc)) (s' : @state Qc Qc_torch),
    dataset_cell {[ "model" := VRef 1%positive ]}
      (set_disk (<["./data" := sample_files]> ∅) sample_state)
    = Returns (Next f') s'
    ∧ gen s' = gen sample_state
    ∧ f' !! "torch" = Some (VModule "torch")
    ∧ f' !! "model" = Some (VRef 1%positive)
    ∧ is_linear_model s' 1%positive
        (pattern [64; 784]) (pattern [64]) (pattern [10; 64]) (pattern [10]).
Proof.
  destruct (dataset_cell_frame (H0 := Qc_torch) {[ "model" := VRef 1%positive ]}
              (set_disk (<["./data" := sample_files]> ∅) sample_state) sample_files)
    as (lt & l1 & l2 & l3 & l4 & f' & s' & Hrun & Hgen & _ & _ & Htorch & _ & _ & _ & _
        & _ & _ & _ & _ & _ & _ & Hnames & _ & Hmodel).
  - left. reflexivity.
  - discriminate.
  - exists f', s'. split; [exact Hrun|]. split; [exact Hgen|].
    split; [exact Htorch|]. split.
    + rewrite Hnames; [reflexivity|].
      rewrite !not_elem_of_cons. repeat split; try discriminate. apply not_elem_of_nil.
    + apply Hmodel. exact sample_state_model.
Defined.

(** ** More on the model *)

Section ModelExtras.
Context {A : Type} `{Scalar A} `{Torch A}.

(** The three objects a constructor call adds to the heap. *)
Lemma model_heap_lookups (h : gmap loc (obj A)) (l l1 l2 : loc) (m o1 o2 : obj A) :
  l ≠ l1 → l ≠ l2 → l1 ≠ l2 →
  <[l := m]> (<[l2 := o2]> (<[l1 := o1]> h)) !! l = Some m
  ∧ <[l := m]> (<[l2 := o2]> (<[l1 := o1]> h)) !! l1 = Some o1
  ∧ <[l := m]> (<[l2 := o2]> (<[l1 := o1]> h)) !! l2 = Some o2.
Proof.
  intros Hn1 Hn2 Hn12. split; [apply lookup_insert_eq|]. split.
  - rewrite lookup_insert_ne by exact Hn1.
    rewrite lookup_insert_ne by exact (not_eq_sym Hn12). apply lookup_insert_eq.
  - rewrite lookup_insert_ne by exact Hn2. apply lookup_insert_eq.
Qed.

(** X8: two models constructed one after the other share nothing.  The two
    instances and their four layers are six different objects; each instance
    holds its own [fc1] and [fc2]; constructing the second leaves the first
    as it was, and neither construction touches the disk or any object that
    existed before. *)
Theorem models_are_independent (s : state A) :
  ∃ (la a1 a2 lb b1 b2 : loc) (wa1 ba1 wa2 ba2 wb1 bb1 wb2 bb2 : tensor A)
    (s' : state A),
    (a ← LinearModel; b ← LinearModel; mret (a, b)) s
    = Returns (VRef la, VRef lb) s'
    ∧ NoDup [la; a1; a2; lb; b1; b2]
    ∧ heap s' !! la = Some (OModule (Some {[ "fc1" := VRef a1; "fc2" := VRef a2 ]}) ∅)
    ∧ heap s' !! lb = Some (OModule (Some {[ "fc1" := VRef b1; "fc2" := VRef b2 ]}) ∅)
    ∧ is_linear_model s' la wa1 ba1 wa2 ba2
    ∧ is_linear_model s' lb wb1 bb1 wb2 bb2
    ∧ disk s' = disk s ∧ mirror s' = mirror s
    ∧ (∀ l o, heap s !! l = Some o → heap s' !! l = Some o).
Proof.
  destruct (LinearModel_run s)
    as (wa1 & ba1 & wa2 & ba2 & ga & la & a1 & a2 & Hruna & Hla & Ha1 & Ha2
        & Hna1 & Hna2 & Hna12 & Hwfa1 & Hwfa2).
  match type of Hruna with _ = Returns _ ?st => set (sa := st) in * end.
  destruct (LinearModel_run sa)
    as (wb1 & bb1 & wb2 & bb2 & gb & lb & b1 & b2 & Hrunb & Hlb & Hb1 & Hb2
        & Hnb1 & Hnb2 & Hnb12 & Hwfb1 & Hwfb2).
  match type of Hrunb with _ = Returns _ ?st => set (sb := st) in * end.
  exists la, a1, a2, lb, b1, b2, wa1, ba1, wa2, ba2, wb1, bb1, wb2, bb2, sb.
  destruct (model_heap_lookups (heap s) la a1 a2
              (OModule (Some {[ "fc1" := VRef a1; "fc2" := VRef a2 ]}) ∅)
              (OLinear 784 64 wa1 ba1) (OLinear 64 10 wa2 ba2) Hna1 Hna2 Hna12)
    as (Hsa_la & Hsa_a1 & Hsa_a2).
  assert (Hfresh : ∀ l o l', heap sa !! l = Some o → heap sa !! l' = None → l ≠ l')
    by (intros l o l' Hl Hl' ->; congruence).
  pose proof (Hfresh _ _ _ Hsa_la Hlb). pose proof (Hfresh _ _ _ Hsa_la Hb1).
  pose proof (Hfresh _ _ _ Hsa_la Hb2). pose proof (Hfresh _ _ _ Hsa_a1 Hlb).
  pose proof (Hfresh _ _ _ Hsa_a1 Hb1). pose proof (Hfresh _ _ _ Hsa_a1 Hb2).
  pose proof (Hfresh _ _ _ Hsa_a2 Hlb). pose proof (Hfresh _ _ _ Hsa_a2 Hb1).
  pose proof (Hfresh _ _ _ Hsa_a2 Hb2).
  assert (Hkeep : ∀ l o, heap sa !! l = Some o → heap sb !! l = Some o).
  { intros l o Hl. subst sb. cbn [heap].
    rewrite !lookup_insert_ne by (apply not_eq_sym; eapply Hfresh; eassumption).
    exact Hl. }
  destruct (model_heap_lookups (heap sa) lb b1 b2
              (OModule (Some {[ "fc1" := VRef b1; "fc2" := VRef b2 ]}) ∅)
              (OLinear 784 64 wb1 bb1) (OLinear 64 10 wb2 bb2) Hnb1 Hnb2 Hnb12)
    as (Hsb_lb & Hsb_b1 & Hsb_b2).
  split.
  { unfold mbind, Py_bind, bind. rewrite Hruna, Hrunb. reflexivity. }
  split.
  { repeat (apply NoDup_cons; split);
      rewrite ?not_elem_of_cons; repeat split; auto using NoDup_nil_2;
      apply not_elem_of_nil. }
  split; [by apply Hkeep|]. split; [exact Hsb_lb|].
  split.
  { exists a1, a2.
    exact (conj (Hkeep _ _ Hsa_la) (conj Hna12 (conj Hna1 (conj Hna2
             (conj (Hkeep _ _ Hsa_a1) (conj (Hkeep _ _ Hsa_a2) (conj Hwfa1 Hwfa2))))))). }
  split.
  { exists b1, b2.
    exact (conj Hsb_lb (conj Hnb12 (conj Hnb1 (conj Hnb2
             (conj Hsb_b1 (conj Hsb_b2 (conj Hwfb1 Hwfb2))))))). }
  split; [reflexivity|]. split; [reflexivity|].
  intros l o Hl. apply Hkeep. subst sa. cbn [heap].
  assert (Hne : ∀ l', heap s !! l' = None → l' ≠ l) by (intros l' Hn ->; congruence).
  rewrite !lookup_insert_ne by (apply Hne; assumption). exact Hl.
Qed.

(** X9: on a model as [__init__] builds it, [forward] runs to its end exactly
    on the float32 tensors whose last dimension is 784: once the first layer
    has accepted the input, neither the rectifier nor the second layer can
    fail, and the first layer accepts nothing else, a tensor of another
    dtype no more than one of another last dimension. *)
Theorem forward_succeeds_iff s l w1 b1 w2 b2 (x : value A) :
  is_linear_model s l w1 b1 w2 b2 →
  forward (VRef l) x s = Returns VNone s
  ↔ ∃ t : tensor A, x = VTensor t ∧ last (shape t) = Some 784.
Proof.
  intros Hm.
  pose proof Hm as (l1 & l2 & _ & _ & _ & _ & _ & _ & Hwf1 & Hwf2).
  rewrite (forward_run s l w1 b1 w2 b2 x Hm). split.
  - intros Hrun.
    destruct x as [| | |t| | |]; try (exfalso; revert Hrun; cbn; discriminate).
    exists t. split; [reflexivity|].
    destruct (decide (last (shape t) = Some 784)) as [Hlast|Hlast]; [exact Hlast|].
    destruct (F_linear_shape_mismatch w1 b1 784 64 t Hwf1 Hlast) as (e & He & _).
    unfold two_layer in Hrun. rewrite He in Hrun. discriminate Hrun.
  - intros (t & -> & Hlast).
    destruct (two_layer_valid w1 b1 w2 b2 t Hwf1 Hwf2 Hlast)
      as (h1 & h2 & y & _ & _ & _ & _ & Htwo).
    by rewrite Htwo.
Qed.

End ModelExtras.

Lemma forward_succeeds_iff_witness :
  forward (VRef 1%positive) (VTensor flat_sample) sample_state
  = Returns VNone sample_state
  ↔ ∃ t : tensor Qc, VTensor flat_sample = VTensor t ∧ last (shape t) = Some 784.
Proof.
  apply (forward_succeeds_iff sample_state 1%positive _ _ _ _ _ sample_state_model).
Defined.

(** ** More on the transform *)

Lemma Qc_ltb_lt (x y : Qc) : Qc_ltb x y = true → (x < y)%Qc.
Proof.
  unfold Qc_ltb, Qclt, Qccompare, Qlt. intros Hc.
  apply Z.compare_lt_iff. change ((x ?= y)%Q = Lt).
  destruct (x ?= y)%Q; [discriminate | reflexivity | discriminate].
Qed.

(** A relation between the images of two intensities under a map can be
    settled by tabulating the map on the 256 intensities and running the
    relation on all pairs of the table. *)
Lemma forall_pixel_pairs {T} (g : Z → T) (r : T → T → bool) (d : T) :
  (let vals := map (λ n, g (Z.of_nat n)) (seq 0 256) in
   forallb (λ n, forallb (λ m, implb (n <? m) (r (nth n vals d) (nth m vals d)))
                         (seq 0 256))
           (seq 0 256)) = true →
  ∀ p q, pixel_ok p = true → pixel_ok q = true → (p < q)%Z → r (g p) (g q) = true.
Proof.
  cbv zeta. intros Hall p q Hp Hq Hlt.
  unfold pixel_ok in Hp, Hq.
  apply andb_prop in Hp as [Hp0 Hp255]. apply andb_prop in Hq as [Hq0 Hq255].
  apply Z.leb_le in Hp0, Hp255, Hq0, Hq255.
  assert (Hnth : ∀ n, n < 256 →
            nth n (map (λ n, g (Z.of_nat n)) (seq 0 256)) d = g (Z.of_nat n)).
  { intros n Hn. apply nth_lookup_Some.
    rewrite map_lookup, (lookup_seq_lt 0 256 n Hn). reflexivity. }
  rewrite forallb_forall in Hall.
  specialize (Hall (Z.to_nat p) ltac:(apply in_seq; lia)).
  rewrite forallb_forall in Hall.
  specialize (Hall (Z.to_nat q) ltac:(apply in_seq; lia)).
  rewrite !Hnth, !Z2Nat.id in Hall by lia.
  rewrite (proj2 (Nat.ltb_lt _ _)) in Hall by lia. exact Hall.
Qed.

Lemma rescale_Qc_increasing (p q : Z) :
  pixel_ok p = true → pixel_ok q = true → (p < q)%Z →
  (rescale (A:=Qc) p < rescale q)%Qc.
Proof.
  intros Hp Hq Hlt. apply Qc_ltb_lt.
  apply (forall_pixel_pairs (rescale (A:=Qc)) Qc_ltb (of_Z 0));
    [vm_compute; reflexivity | exact Hp | exact Hq | exact Hlt].
Qed.

Lemma rescale_f32_increasing (p q : Z) :
  pixel_ok p = true → pixel_ok q = true → (p < q)%Z →
  sltb (rescale (A:=f32) p) (rescale q) = true.
Proof.
  intros Hp Hq Hlt.
  apply (forall_pixel_pairs (rescale (A:=f32)) sltb (of_Z 0));
    [vm_compute; reflexivity | exact Hp | exact Hq | exact Hlt].
Qed.

(** X10: [transform] keeps the order of intensities: of two pixels of an
    image, the brighter one has the strictly larger value in the tensor, in
    exact arithmetic and in binary32.  So no two of the 256 intensities
    fall together, not even after rounding. *)
Theorem transform_preserves_order (img : image) (i j : nat) (p q : Z) :
  pixels img !! i = Some p → pixels img !! j = Some q →
  pixel_ok p = true → pixel_ok q = true → (p < q)%Z →
  (∃ t : tensor Qc,
      apply_transform transform (VImage img) = Ok (VTensor t)
      ∧ ∃ a b, data t !! i = Some a ∧ data t !! j = Some b ∧ (a < b)%Qc)
  ∧ (∃ t : tensor f32,
      apply_transform transform (VImage img) = Ok (VTensor t)
      ∧ ∃ a b, data t !! i = Some a ∧ data t !! j = Some b ∧ sltb a b = true).
Proof.
  intros Hi Hj Hp Hq Hlt. split.
  - eexists. split; [apply normalize_to_tensor, std_nonzero_Qc|].
    cbn [data]. exists (rescale p), (rescale q).
    rewrite !map_lookup, Hi, Hj.
    split; [reflexivity|]. split; [reflexivity|].
    by apply rescale_Qc_increasing.
  - eexists. split; [apply normalize_to_tensor, std_nonzero_f32|].
    cbn [data]. exists (rescale p), (rescale q).
    rewrite !map_lookup, Hi, Hj.
    split; [reflexivity|]. split; [reflexivity|].
    by apply rescale_f32_increasing.
Qed.

Lemma transform_preserves_order_witness :
  (∃ t : tensor Qc,
      apply_transform transform (VImage black_white) = Ok (VTensor t)
      ∧ ∃ a b, data t !! 0 = Some a ∧ data t !! 1 = Some b ∧ (a < b)%Qc)
  ∧ (∃ t : tensor f32,
      apply_transform transform (VImage black_white) = Ok (VTensor t)
      ∧ ∃ a b, data t !! 0 = Some a ∧ data t !! 1 = Some b ∧ sltb a b = true).
Proof.
  apply (transform_preserves_order black_white 0 1 0 255); reflexivity.
Defined.

Section TransformExtras.
Context {A : Type} `{Scalar A}.

(** X11: [transform] cannot be applied twice.  It turns every image into a
    float32 tensor, and applied to a tensor, of whatever dtype, its first
    step [ToTensor] raises [TypeError]; so applying it to its own output, a
    sample that went through it once, raises [TypeError]. *)
Theorem transform_rejects_tensors (img : image) :
  seqb (lit_0_5 (A:=A)) zero = false →
  (∃ t : tensor A,
     apply_transform transform (VImage img) = Ok (VTensor t)
     ∧ rbind (apply_transform transform (VImage img)) (apply_transform transform)
       = Err (Exn TypeError "pic should be PIL Image or ndarray"))
  ∧ (∀ t : tensor A,
       apply_transform transform (VTensor t)
       = Err (Exn TypeError "pic should be PIL Image or ndarray"))
  ∧ (∀ (dt : other_dtype) (sh : list nat),
       apply_transform transform (VTensorOther dt sh : value A)
       = Err (Exn TypeError "pic should be PIL Image or ndarray")).
Proof.
  intros Hstd. split; [|by split].
  eexists. split; [apply (normalize_to_tensor img Hstd)|].
  rewrite (normalize_to_tensor img Hstd). reflexivity.
Qed.

End TransformExtras.

Lemma transform_rejects_tensors_witness :
  (∃ t : tensor Qc,
     apply_transform transform (VImage black_white : value Qc) = Ok (VTensor t)
     ∧ rbind (apply_transform transform (VImage black_white : value Qc)) (apply_transform transform)
       = Err (Exn TypeError "pic should be PIL Image or ndarray"))
  ∧ (∀ t : tensor Qc,
       apply_transform transform (VTensor t)
       = Err (Exn TypeError "pic should be PIL Image or ndarray"))
  ∧ (∀ (dt : other_dtype) (sh : list nat),
       apply_transform transform (VTensorOther dt sh : value Qc)
       = Err (Exn TypeError "pic should be PIL Image or ndarray")).
Proof.
  apply (transform_rejects_tensors (A:=Qc) black_white). reflexivity.
Defined.
